(** * Selection state of the GUI / Custom classification dialogs

    A shallow embedding of the dialog prototypes of the repository
    (PySide6 widgets that list strings and ask for a "GUI" or "Custom"
    choice per string) and the properties their selection handling has.

    One module per source file.  Every handler is translated statement
    by statement; layout, fonts and style sheets carry no state and are
    left out.  The toolkit classes the handlers call ([QButtonGroup],
    [QRadioButton], [QCheckBox], [QMessageBox]) are not part of the
    repository; the few operations used are modelled first. *)

From Stdlib Require Import String Ascii ZArith Bool Arith Lia List.
From Stdlib Require Import Decimal DecimalNat DecimalString.
Import ListNotations.
Open Scope string_scope.
Open Scope list_scope.

(* ================================================================== *)
(** * Toolkit primitives *)
(* ================================================================== *)

(** The two radio buttons of a row: [addButton(gui_radio, 0)] and
    [addButton(custom_radio, 1)]. *)
Inductive radio_id : Type :=
| GuiRadio
| CustomRadio.

Definition id_of (r : radio_id) : Z :=
  match r with
  | GuiRadio => 0
  | CustomRadio => 1
  end.

Definition radio_eqb (a b : radio_id) : bool :=
  match a, b with
  | GuiRadio, GuiRadio => true
  | CustomRadio, CustomRadio => true
  | _, _ => false
  end.

(** Modelled from the spec: the toolkit's [QButtonGroup] holding the two
    radio buttons of one row (section 3: an item's choice is Unset,
    OptionA or OptionB; section 9: "one native exclusive choice primitive
    per row").  The group is exclusive, so its state is the button that is
    checked, if any. *)
Definition button_group : Type := option radio_id.

(** [QButtonGroup.checkedId()]: the id of the checked button, -1 if none. *)
Definition checkedId (bg : button_group) : Z :=
  match bg with
  | None => -1
  | Some r => id_of r
  end.

(** [QButtonGroup.checkedButton()]. *)
Definition checkedButton (bg : button_group) : option radio_id := bg.

(** Modelled from the spec: [button_group.button(r).setChecked(True)]
    (section 4.1, toggleItem "sets a single Item's choice to option,
    overwriting any prior choice").  Returns the new group state and the
    number of [toggled] signals the call emits: none when the button was
    already checked, one when nothing was checked before, two when the
    other button of the group gets unchecked. *)
Definition setChecked_true (r : radio_id) (bg : button_group)
  : button_group * nat :=
  match bg with
  | None => (Some r, 1)
  | Some r' => if radio_eqb r r' then (bg, 0) else (Some r, 2)
  end.

(** The idiom
    [b.setAutoExclusive(False); b.setChecked(False); b.setAutoExclusive(True)]
    applied to the checked button [b] of a group.  The source comments it
    as "Temporarily disable auto-exclusive", "Uncheck", "Re-enable
    auto-exclusive".  The two radio buttons of a row were added to a
    [QButtonGroup], which is exclusive: [setAutoExclusive] has no effect on a
    button that belongs to a group, and the toolkit refuses
    [setChecked(False)] on the checked button of an exclusive group.  The
    group stays as it was and no [toggled] signal is raised. *)
Definition uncheck (b : radio_id) (bg : button_group) : button_group * nat :=
  (bg, 0).

(** Body of the loop of [clear_all_selections], the same in both files
    that have it:
    [[
    checked_button = button_group.checkedButton()
    if checked_button:
        checked_button.setAutoExclusive(False)
        checked_button.setChecked(False)
        checked_button.setAutoExclusive(True)
    ]] *)
Definition clear_button (bg : button_group) : button_group * nat :=
  match checkedButton bg with
  | Some checked_button => uncheck checked_button bg
  | None => (bg, 0)
  end.

(** A toolkit call that raises no [toggled] signal has changed nothing. *)
Definition quiet_when_unchanged (call : button_group -> button_group * nat)
  : Prop :=
  forall bg, snd (call bg) = 0 -> fst (call bg) = bg.

(** [self.button_groups]: the list of [(string_item, button_group)] pairs,
    in the order of the input list. *)
Definition rows : Type := list (string * button_group).

(** Mutation of the group object stored at position [i] of the list.
    There is no row outside the list, so nothing happens there. *)
Fixpoint update_row (i : nat) (f : button_group -> button_group) (rs : rows)
  : rows :=
  match rs, i with
  | [], _ => []
  | (s, bg) :: rest, O => (s, f bg) :: rest
  | row :: rest, S j => row :: update_row j f rest
  end.

(** [for _, bg in self.button_groups: <mutate bg>], one index at a time. *)
Definition for_each_row (f : button_group -> button_group) (rs : rows) : rows :=
  fold_left (fun acc i => update_row i f acc) (seq 0 (length rs)) rs.

(** The rows with every group in state [c]. *)
Definition set_row_choice (c : button_group) (rs : rows) : rows :=
  map (fun row => (fst row, c)) rs.

(** The rows built by the constructor: one unchecked group per string. *)
Definition create_rows (string_list : list string) : rows :=
  fold_left (fun acc string_item => acc ++ [(string_item, None)]) string_list [].

(** [sep.join(items)]. *)
Fixpoint join (sep : string) (items : list string) : string :=
  match items with
  | [] => EmptyString
  | [s] => s
  | s :: rest => String.append s (String.append sep (join sep rest))
  end.

(** [s in t] on strings. *)
Fixpoint occurs_in (s t : string) : bool :=
  if String.prefix s t then true
  else match t with
       | EmptyString => false
       | String _ t' => occurs_in s t'
       end.

(* ================================================================== *)
(** * Code shared verbatim by the dialog classes *)
(* ================================================================== *)

(** What an OK click does to the outside: either the warning box is shown
    and the handler returns (the value of the local [unselected_items] at
    that point is recorded with the box's title and text), or the result is
    emitted through [result_ready]. *)
Inductive ok_effect : Type :=
| Warning (unselected_items : list string) (title text : string)
| ResultReady (result : list (string * string)).

(** First loop of the validating [on_ok_clicked]:
    [[
    unselected_items = []
    for string_item, button_group in self.button_groups:
        if button_group.checkedId() == -1:
            unselected_items.append(string_item)
    ]] *)
Definition unselected_items (bgs : rows) : list string :=
  fold_left
    (fun acc '(string_item, button_group) =>
       if (checkedId button_group =? -1)%Z then acc ++ [string_item] else acc)
    bgs [].

(** [get_result], identical in every dialog class:
    [[
    result = []
    for string_item, button_group in self.button_groups:
        checked_id = button_group.checkedId()
        choice = "GUI" if checked_id == 0 else "Custom"
        result.append((string_item, choice))
    return result
    ]] *)
Definition get_result (bgs : rows) : list (string * string) :=
  fold_left
    (fun result '(string_item, button_group) =>
       let checked_id := checkedId button_group in
       let choice := if (checked_id =? 0)%Z then "GUI" else "Custom" in
       result ++ [(string_item, choice)])
    bgs [].

(** The test and the body of those two loops, on a row. *)
Definition is_unset (row : string * button_group) : bool :=
  (checkedId (snd row) =? -1)%Z.

Definition render_row (row : string * button_group) : string * string :=
  (fst row, if (checkedId (snd row) =? 0)%Z then "GUI" else "Custom").

(** Truth value of a list in [if unselected_items:]. *)
Definition truthy {A : Type} (l : list A) : bool :=
  match l with
  | [] => false
  | _ :: _ => true
  end.

Definition warning_title : string := "Incomplete Selection".
Definition generic_warning_text : string :=
  "Please select all options before proceeding.".

(** The rendering of a chosen option in the result. *)
Definition option_text (r : radio_id) : string :=
  match r with
  | GuiRadio => "GUI"
  | CustomRadio => "Custom"
  end.

(** A user's click on radio button [r] of row [i]. *)
Definition click_radio_row (i : nat) (r : radio_id) (rs : rows) : rows :=
  update_row i (fun bg => fst (setChecked_true r bg)) rs.

(** The option most recently clicked in row [i] by a sequence of clicks,
    [start] if the row was never clicked. *)
Definition last_choice_from (start : button_group)
  (clicks : list (nat * radio_id)) (i : nat) : button_group :=
  fold_left (fun acc '(j, r) => if Nat.eqb j i then Some r else acc) clicks start.

Definition last_choice (clicks : list (nat * radio_id)) (i : nat)
  : button_group :=
  last_choice_from None clicks i.

(** The state of the dialogs that have radio rows only. *)
Record dialog : Type := mkDialog {
  button_groups : rows;
  closed : bool
}.

Definition new_dialog (string_list : list string) : dialog :=
  {| button_groups := create_rows string_list; closed := false |}.

Definition close (w : dialog) : dialog :=
  {| button_groups := button_groups w; closed := true |}.

Definition set_button_groups (rs : rows) (w : dialog) : dialog :=
  {| button_groups := rs; closed := closed w |}.

(* ================================================================== *)
(** * dynamic_string_widget.py *)
(* ================================================================== *)

Module dynamic_string_widget.

(** [on_ok_clicked]: no validation, the result is emitted as it is. *)
Definition on_ok_clicked (w : dialog) : dialog * ok_effect :=
  let result := get_result (button_groups w) in
  (close w, ResultReady result).

End dynamic_string_widget.

(* ================================================================== *)
(** * design_dynamic_custom_table.py *)
(* ================================================================== *)

Module design_dynamic_custom_table.

Definition on_ok_clicked (w : dialog) : dialog * ok_effect :=
  let unselected := unselected_items (button_groups w) in
  if truthy unselected then
    (w, Warning unselected warning_title generic_warning_text)
  else
    let result := get_result (button_groups w) in
    (close w, ResultReady result).

(** toggleItem: the user clicks radio [r] of row [i]. *)
Definition click_radio (i : nat) (r : radio_id) (w : dialog) : dialog :=
  set_button_groups (click_radio_row i r (button_groups w)) w.

Definition run_clicks (clicks : list (nat * radio_id)) (w : dialog) : dialog :=
  fold_left (fun acc '(i, r) => click_radio i r acc) clicks w.

End design_dynamic_custom_table.

(* ================================================================== *)
(** * design_dynamic_custom_table_3.py *)
(* ================================================================== *)

Module design_dynamic_custom_table_3.

(** [f"Please select options for: {items_text}"] with
    [items_text = ", ".join(unselected_items)]. *)
Definition warning_text (unselected : list string) : string :=
  let items_text := join ", " unselected in
  String.append "Please select options for: " items_text.

Definition on_ok_clicked (w : dialog) : dialog * ok_effect :=
  let unselected := unselected_items (button_groups w) in
  if truthy unselected then
    (w, Warning unselected warning_title (warning_text unselected))
  else
    let result := get_result (button_groups w) in
    (close w, ResultReady result).

End design_dynamic_custom_table_3.

(* ================================================================== *)
(** * select_all_custom_code_box.py *)
(* ================================================================== *)

Module select_all_custom_code_box.

Definition are_all_gui_selected (w : dialog) : bool :=
  forallb (fun '(_, bg) => (checkedId bg =? 0)%Z) (button_groups w).

Definition are_all_custom_selected (w : dialog) : bool :=
  forallb (fun '(_, bg) => (checkedId bg =? 1)%Z) (button_groups w).

Definition clear_all_selections (w : dialog) : dialog :=
  set_button_groups
    (for_each_row (fun button_group => fst (clear_button button_group))
       (button_groups w))
    w.

Definition select_all (r : radio_id) (w : dialog) : dialog :=
  set_button_groups
    (for_each_row (fun button_group => fst (setChecked_true r button_group))
       (button_groups w))
    w.

Definition select_all_gui (w : dialog) : dialog :=
  if are_all_gui_selected w then clear_all_selections w
  else select_all GuiRadio w.

Definition select_all_custom (w : dialog) : dialog :=
  if are_all_custom_selected w then clear_all_selections w
  else select_all CustomRadio w.

Definition on_ok_clicked (w : dialog) : dialog * ok_effect :=
  let unselected := unselected_items (button_groups w) in
  if truthy unselected then
    (w, Warning unselected warning_title generic_warning_text)
  else
    let result := get_result (button_groups w) in
    (close w, ResultReady result).

End select_all_custom_code_box.

(* ================================================================== *)
(** * string_popup_dynamic_widget.py *)
(* ================================================================== *)

Module string_popup_dynamic_widget.

Record widget : Type := mkWidget {
  button_groups : rows;
  gui_checkbox : bool;
  custom_checkbox : bool;
  closed : bool
}.

Definition new_widget (string_list : list string) : widget :=
  {| button_groups := create_rows string_list;
     gui_checkbox := false;
     custom_checkbox := false;
     closed := false |}.

Definition set_rows (rs : rows) (w : widget) : widget :=
  {| button_groups := rs;
     gui_checkbox := gui_checkbox w;
     custom_checkbox := custom_checkbox w;
     closed := closed w |}.

Definition set_gui_checkbox (b : bool) (w : widget) : widget :=
  {| button_groups := button_groups w;
     gui_checkbox := b;
     custom_checkbox := custom_checkbox w;
     closed := closed w |}.

Definition set_custom_checkbox (b : bool) (w : widget) : widget :=
  {| button_groups := button_groups w;
     gui_checkbox := gui_checkbox w;
     custom_checkbox := b;
     closed := closed w |}.

Definition check_all (r : radio_id) (w : widget) : widget :=
  set_rows
    (for_each_row (fun bg => fst (setChecked_true r bg)) (button_groups w)) w.

(** The slot of [gui_checkbox.clicked]; the box already shows its new
    state when the slot runs. *)
Definition on_gui_checkbox_clicked (w : widget) : widget :=
  if gui_checkbox w then
    set_custom_checkbox false (check_all GuiRadio w)
  else
    set_custom_checkbox true (check_all CustomRadio w).

Definition on_custom_checkbox_clicked (w : widget) : widget :=
  if custom_checkbox w then
    set_gui_checkbox false (check_all CustomRadio w)
  else
    set_gui_checkbox true (check_all GuiRadio w).

(** A user's click on a master check box: the box flips, then [clicked]
    reaches the slot. *)
Definition click_gui_checkbox (w : widget) : widget :=
  on_gui_checkbox_clicked (set_gui_checkbox (negb (gui_checkbox w)) w).

Definition click_custom_checkbox (w : widget) : widget :=
  on_custom_checkbox_clicked (set_custom_checkbox (negb (custom_checkbox w)) w).

(** A user's click on radio [r] of row [i]; no slot is connected to the
    radio buttons in this file. *)
Definition click_radio (i : nat) (r : radio_id) (w : widget) : widget :=
  set_rows (click_radio_row i r (button_groups w)) w.

Inductive gesture : Type :=
| ToggleItem (i : nat) (r : radio_id)
| ActivateMaster (r : radio_id).

Definition step (g : gesture) (w : widget) : widget :=
  match g with
  | ToggleItem i r => click_radio i r w
  | ActivateMaster GuiRadio => click_gui_checkbox w
  | ActivateMaster CustomRadio => click_custom_checkbox w
  end.

Inductive reachable (string_list : list string) : widget -> Prop :=
| reach_new : reachable string_list (new_widget string_list)
| reach_step : forall w g,
    reachable string_list w -> reachable string_list (step g w).

(** Section 3: at most one master control is On. *)
Definition mutually_exclusive (w : widget) : Prop :=
  (gui_checkbox w = true -> custom_checkbox w = false) /\
  (custom_checkbox w = true -> gui_checkbox w = false).

Definition close (w : widget) : widget :=
  {| button_groups := button_groups w;
     gui_checkbox := gui_checkbox w;
     custom_checkbox := custom_checkbox w;
     closed := true |}.

Definition on_ok_clicked (w : widget) : widget * ok_effect :=
  let unselected := unselected_items (button_groups w) in
  if truthy unselected then
    (w, Warning unselected warning_title generic_warning_text)
  else
    let result := get_result (button_groups w) in
    (close w, ResultReady result).

End string_popup_dynamic_widget.

(* ================================================================== *)
(** * Custom_checkbox_2.py *)
(* ================================================================== *)

Module Custom_checkbox_2.

Record widget : Type := mkWidget {
  button_groups : rows;
  gui_checkbox : bool;
  custom_checkbox : bool;
  updating_checkboxes : bool;   (* "Flag to prevent recursive updates" *)
  closed : bool
}.

Definition new_widget (string_list : list string) : widget :=
  {| button_groups := create_rows string_list;
     gui_checkbox := false;
     custom_checkbox := false;
     updating_checkboxes := false;
     closed := false |}.

Definition set_rows (rs : rows) (w : widget) : widget :=
  {| button_groups := rs;
     gui_checkbox := gui_checkbox w;
     custom_checkbox := custom_checkbox w;
     updating_checkboxes := updating_checkboxes w;
     closed := closed w |}.

Definition set_gui_checkbox (b : bool) (w : widget) : widget :=
  {| button_groups := button_groups w;
     gui_checkbox := b;
     custom_checkbox := custom_checkbox w;
     updating_checkboxes := updating_checkboxes w;
     closed := closed w |}.

Definition set_custom_checkbox (b : bool) (w : widget) : widget :=
  {| button_groups := button_groups w;
     gui_checkbox := gui_checkbox w;
     custom_checkbox := b;
     updating_checkboxes := updating_checkboxes w;
     closed := closed w |}.

Definition set_updating (b : bool) (w : widget) : widget :=
  {| button_groups := button_groups w;
     gui_checkbox := gui_checkbox w;
     custom_checkbox := custom_checkbox w;
     updating_checkboxes := b;
     closed := closed w |}.

Definition close (w : widget) : widget :=
  {| button_groups := button_groups w;
     gui_checkbox := gui_checkbox w;
     custom_checkbox := custom_checkbox w;
     updating_checkboxes := updating_checkboxes w;
     closed := true |}.

(** Every radio button's [toggled] signal is connected to
    [on_radio_button_changed].  A run of a handler is a state change
    together with the record of what each invocation of that slot did:
    it returned at its guard, or it recomputed the master check boxes.
    The record is an observation of the run; no handler reads it. *)
Inductive slot_event : Type :=
| Suppressed
| Recomputed.

Definition action : Type := widget -> widget * list slot_event.

Definition skip : action := fun w => (w, []).

Definition modify (f : widget -> widget) : action := fun w => (f w, []).

Definition and_then (a b : action) : action :=
  fun w =>
    let '(w1, log1) := a w in
    let '(w2, log2) := b w1 in
    (w2, log1 ++ log2).

Notation "a ;; b" := (and_then a b) (at level 61, right associativity).

Fixpoint for_each {A : Type} (xs : list A) (body : A -> action) : action :=
  match xs with
  | [] => skip
  | x :: rest => body x ;; for_each rest body
  end.

(** [for _, bg in self.button_groups:], by position. *)
Definition for_each_index (body : nat -> action) : action :=
  fun w => for_each (seq 0 (length (button_groups w))) body w.

(** [sum(1 for _, bg in self.button_groups if bg.checkedId() == k)]. *)
Definition count_checked (k : Z) (rs : rows) : nat :=
  fold_left
    (fun acc '(_, bg) => if (checkedId bg =? k)%Z then acc + 1 else acc)
    rs 0.

Definition update_checkbox_states_from_radios : action :=
  fun w =>
    if updating_checkboxes w then (w, [Suppressed])
    else
      let w := set_updating true w in
      let gui_count := count_checked 0 (button_groups w) in
      let custom_count := count_checked 1 (button_groups w) in
      let total_count := length (button_groups w) in
      let w := set_gui_checkbox (Nat.eqb gui_count total_count) w in
      let w := set_custom_checkbox (Nat.eqb custom_count total_count) w in
      (set_updating false w, [Recomputed]).

Definition on_radio_button_changed : action :=
  fun w =>
    if updating_checkboxes w then (w, [Suppressed])
    else update_checkbox_states_from_radios w.

(** Delivery of [n] [toggled] signals to the connected slot. *)
Fixpoint emit_toggled (n : nat) : action :=
  match n with
  | O => skip
  | S k => on_radio_button_changed ;; emit_toggled k
  end.

(** A toolkit call on the group of row [i]: the group takes its new
    state, then the [toggled] signals of the call are delivered. *)
Definition on_row (i : nat) (call : button_group -> button_group * nat)
  : action :=
  fun w =>
    match nth_error (button_groups w) i with
    | None => (w, [])
    | Some (_, bg) =>
        let '(bg', signals) := call bg in
        emit_toggled signals
          (set_rows (update_row i (fun _ => bg') (button_groups w)) w)
    end.

(** [button_group.button(r).setChecked(True)] on row [i]. *)
Definition radio_setChecked (i : nat) (r : radio_id) : action :=
  on_row i (setChecked_true r).

Definition clear_all_selections : action :=
  for_each_index (fun i => on_row i clear_button).

Definition on_gui_checkbox_clicked : action :=
  fun w =>
    if updating_checkboxes w then (w, [])
    else
      (modify (set_updating true) ;;
       (fun w =>
          if gui_checkbox w then
            (for_each_index (fun i => radio_setChecked i GuiRadio) ;;
             modify (set_custom_checkbox false)) w
          else clear_all_selections w) ;;
       modify (set_updating false)) w.

Definition on_custom_checkbox_clicked : action :=
  fun w =>
    if updating_checkboxes w then (w, [])
    else
      (modify (set_updating true) ;;
       (fun w =>
          if custom_checkbox w then
            (for_each_index (fun i => radio_setChecked i CustomRadio) ;;
             modify (set_gui_checkbox false)) w
          else clear_all_selections w) ;;
       modify (set_updating false)) w.

(** A user's click on a master check box: the box flips, then its
    [clicked] signal reaches the slot.  The check boxes' other signals
    have no slot, so [setChecked] on them calls nothing. *)
Definition click_gui_checkbox : action :=
  modify (fun w => set_gui_checkbox (negb (gui_checkbox w)) w) ;;
  on_gui_checkbox_clicked.

Definition click_custom_checkbox : action :=
  modify (fun w => set_custom_checkbox (negb (custom_checkbox w)) w) ;;
  on_custom_checkbox_clicked.

Definition on_ok_clicked (w : widget) : widget * ok_effect :=
  let unselected := unselected_items (button_groups w) in
  if truthy unselected then
    (w, Warning unselected warning_title generic_warning_text)
  else
    let result := get_result (button_groups w) in
    (close w, ResultReady result).

(** The operations of the selection synchronizer on this dialog. *)
Inductive gesture : Type :=
| ToggleItem (i : nat) (r : radio_id)
| ActivateMaster (r : radio_id)
| ClearAll.

Definition perform (g : gesture) : action :=
  match g with
  | ToggleItem i r => radio_setChecked i r
  | ActivateMaster GuiRadio => click_gui_checkbox
  | ActivateMaster CustomRadio => click_custom_checkbox
  | ClearAll => clear_all_selections
  end.

Definition step (g : gesture) (w : widget) : widget := fst (perform g w).

Inductive reachable (string_list : list string) : widget -> Prop :=
| reach_new : reachable string_list (new_widget string_list)
| reach_step : forall w g,
    reachable string_list w -> reachable string_list (step g w).

(** The choice held by every row. *)
Definition all_rows (c : button_group) (rs : rows) : Prop :=
  Forall (fun row => snd row = c) rs.

(** Section 3: a master control is On iff every item's choice equals its
    option. *)
Definition derivation_rule (w : widget) : Prop :=
  (gui_checkbox w = true <-> all_rows (Some GuiRadio) (button_groups w)) /\
  (custom_checkbox w = true <-> all_rows (Some CustomRadio) (button_groups w)).

(** Section 3: at most one master control is On. *)
Definition mutually_exclusive (w : widget) : Prop :=
  (gui_checkbox w = true -> custom_checkbox w = false) /\
  (custom_checkbox w = true -> gui_checkbox w = false).

(** The two assignments of [update_checkbox_states_from_radios], as a
    relation between the boxes and the rows. *)
Definition derived (w : widget) : Prop :=
  gui_checkbox w =
    Nat.eqb (count_checked 0 (button_groups w)) (length (button_groups w)) /\
  custom_checkbox w =
    Nat.eqb (count_checked 1 (button_groups w)) (length (button_groups w)).

(** What holds between two gestures: the guard is down, the boxes exclude
    each other, and a checked box has its whole column checked. *)
Definition consistent (w : widget) : Prop :=
  updating_checkboxes w = false /\
  mutually_exclusive w /\
  (gui_checkbox w = true -> all_rows (Some GuiRadio) (button_groups w)) /\
  (custom_checkbox w = true -> all_rows (Some CustomRadio) (button_groups w)).

End Custom_checkbox_2.

(* ================================================================== *)
(** * dynamic_widget.py and dynamic_widget02.py: ScrollableRadioWidget *)
(* ================================================================== *)

(** A Python [dict] with string keys, in insertion order: assigning to a
    key that is present replaces its value in place, assigning to a new
    key appends. *)
Definition dict (V : Type) : Type := list (string * V).

Fixpoint dict_set {V : Type} (k : string) (v : V) (d : dict V) : dict V :=
  match d with
  | [] => [(k, v)]
  | (k', v') :: rest =>
      if String.eqb k k' then (k, v) :: rest else (k', v') :: dict_set k v rest
  end.

Fixpoint dict_get {V : Type} (k : string) (d : dict V) : option V :=
  match d with
  | [] => None
  | (k', v') :: rest => if String.eqb k k' then Some v' else dict_get k rest
  end.

(** [str(n)] of a non-negative integer. *)
Definition decimal (n : nat) : string :=
  NilEmpty.string_of_uint (Nat.to_uint n).

(** [f"section_{n}"]. *)
Definition section_key (n : nat) : string :=
  String.append "section_" (decimal n).

(** The groups of these two files hold their radio buttons under the ids
    1 and 2: [addButton(radio1, 1)], [addButton(radio2, 2)]. *)
Inductive section_radio : Type :=
| Radio1
| Radio2.

Definition section_group : Type := option section_radio.

Definition section_checkedId (g : section_group) : Z :=
  match g with
  | None => -1
  | Some Radio1 => 1
  | Some Radio2 => 2
  end.

(** Truth value of [group.checkedButton()] for an enumerated group. *)
Definition is_checked (p : nat * section_group) : bool :=
  match snd p with
  | Some _ => true
  | None => false
  end.

(** [enumerate(xs, start)]. *)
Definition enumerate {A : Type} (xs : list A) (start : nat) : list (nat * A) :=
  combine (seq start (length xs)) xs.

Module dynamic_widget02.

Record widget : Type := mkWidget {
  section_counter : nat;
  button_groups : list section_group
}.

(** The state part of [__init__]. *)
Definition new_widget : widget :=
  {| section_counter := 0; button_groups := [] |}.

(** The state part of [add_section]: the counter goes up and a group with
    two unchecked radio buttons is appended. *)
Definition add_section (w : widget) : widget :=
  {| section_counter := section_counter w + 1;
     button_groups := button_groups w ++ [None] |}.

(** [[
    selections = {}
    for i, group in enumerate(self.button_groups, start=1):
        btn = group.checkedButton()
        if btn:
            selections[f"section_{i}"] = group.checkedId()
        else:
            selections[f"section_{i}"] = None
    return selections
    ]] *)
Definition get_selections (w : widget) : dict (option Z) :=
  fold_left
    (fun selections '(i, group) =>
       let btn := group in
       match btn with
       | Some _ => dict_set (section_key i) (Some (section_checkedId group))
                     selections
       | None => dict_set (section_key i) None selections
       end)
    (enumerate (button_groups w) 1) [].

End dynamic_widget02.

Module dynamic_widget.

(** [ScrollableRadioWidget] of this file has the same two attributes. *)
Definition widget : Type := dynamic_widget02.widget.

(** [[
    selections = {}
    for i, group in enumerate(self.button_groups):
        if group.checkedButton():
            selections[f"section_{i+1}"] = group.checkedId()
    return selections
    ]] *)
Definition get_selections (w : widget) : dict Z :=
  fold_left
    (fun selections '(i, group) =>
       match group with
       | Some _ => dict_set (section_key (i + 1)) (section_checkedId group)
                     selections
       | None => selections
       end)
    (enumerate (dynamic_widget02.button_groups w) 0) [].

End dynamic_widget.

(* ================================================================== *)
(** * Example inputs *)
(* ================================================================== *)

(** The list of the example of [string_popup_dynamic_widget.main]. *)
Definition api_names : list string :=
  ["getUserData"; "fetchUserInfo"; "getProfile"].

(** The first two rows classified, the third left open. *)
Definition partly_classified : dialog :=
  {| button_groups :=
       [("getUserData", Some GuiRadio);
        ("fetchUserInfo", Some CustomRadio);
        ("getProfile", None)];
     closed := false |}.

(** The same rows in the dialog with master check boxes. *)
Definition partly_classified_boxes : Custom_checkbox_2.widget :=
  {| Custom_checkbox_2.button_groups := button_groups partly_classified;
     Custom_checkbox_2.gui_checkbox := false;
     Custom_checkbox_2.custom_checkbox := false;
     Custom_checkbox_2.updating_checkboxes := false;
     Custom_checkbox_2.closed := false |}.

(** [select_all_custom_code_box] after one click on its GUI button. *)
Definition all_gui_by_button : dialog :=
  select_all_custom_code_box.select_all_gui (new_dialog api_names).

(** [string_popup_dynamic_widget] after one click on its GUI check box. *)
Definition all_gui_by_checkbox : string_popup_dynamic_widget.widget :=
  string_popup_dynamic_widget.click_gui_checkbox
    (string_popup_dynamic_widget.new_widget api_names).

(** [select_all_custom_code_box] after two clicks on its GUI button. *)
Definition gui_button_twice : dialog :=
  select_all_custom_code_box.select_all_gui all_gui_by_button.

(** [Custom_checkbox_2] after one click on its GUI check box, and after a
    second click on the same box. *)
Definition gui_box_checked : Custom_checkbox_2.widget :=
  Custom_checkbox_2.step (Custom_checkbox_2.ActivateMaster GuiRadio)
    (Custom_checkbox_2.new_widget api_names).

Definition gui_box_checked_then_unchecked : Custom_checkbox_2.widget :=
  Custom_checkbox_2.step (Custom_checkbox_2.ActivateMaster GuiRadio)
    gui_box_checked.

(** Clicks that classify every row of [api_names], the first row twice. *)
Definition classifying_clicks : list (nat * radio_id) :=
  [(0, CustomRadio); (1, CustomRadio); (0, GuiRadio); (2, GuiRadio)].


(* ================================================================== *)
(** * Lists, rows and strings *)
(* ================================================================== *)

Section Appending.
Context {A B : Type}.

(** A loop that appends to an accumulator builds a [flat_map]. *)
Lemma fold_left_append (g : A -> list B) (l : list A) (acc : list B) :
  fold_left (fun acc x => acc ++ g x) l acc = acc ++ flat_map g l.
Proof.
  revert acc; induction l as [|x l IH]; intros acc; simpl.
  - now rewrite app_nil_r.
  - rewrite IH. now rewrite <- app_assoc.
Qed.

Lemma fold_left_ext (f g : B -> A -> B) (l : list A) (acc : B) :
  (forall b a, f b a = g b a) -> fold_left f l acc = fold_left g l acc.
Proof.
  intros E. revert acc; induction l as [|x l IH]; intros acc; simpl.
  - reflexivity.
  - rewrite E. apply IH.
Qed.
End Appending.

Lemma create_rows_map (string_list : list string) :
  create_rows string_list = map (fun s => (s, None)) string_list.
Proof.
  unfold create_rows.
  rewrite (fold_left_append (fun s => [(s, @None radio_id)])). simpl.
  induction string_list as [|s l IH]; simpl; congruence.
Qed.

Lemma unselected_items_filter (rs : rows) :
  unselected_items rs = map fst (filter is_unset rs).
Proof.
  unfold unselected_items.
  rewrite (fold_left_ext _
             (fun acc row => acc ++ (if is_unset row then [fst row] else []))).
  - rewrite fold_left_append. simpl.
    induction rs as [|[s bg] rs IH]; simpl; [reflexivity|].
    unfold is_unset at 1 3; simpl. destruct (checkedId bg =? -1)%Z; simpl; congruence.
  - intros acc [s bg]. unfold is_unset; simpl.
    destruct (checkedId bg =? -1)%Z; [reflexivity | now rewrite app_nil_r].
Qed.

Lemma get_result_map (rs : rows) :
  get_result rs = map render_row rs.
Proof.
  unfold get_result.
  rewrite (fold_left_ext _ (fun acc row => acc ++ [render_row row])).
  - rewrite fold_left_append. simpl.
    induction rs as [|row rs IH]; simpl; congruence.
  - intros acc [s bg]. reflexivity.
Qed.

Lemma is_unset_iff (row : string * button_group) :
  is_unset row = true <-> snd row = None.
Proof.
  destruct row as [s [[|]|]]; unfold is_unset; simpl; split; congruence.
Qed.

Lemma unselected_items_all_unset (rs : rows) :
  Forall (fun row => snd row = None) rs -> unselected_items rs = map fst rs.
Proof.
  intros H. rewrite unselected_items_filter. f_equal.
  induction H as [|row rs Hrow _ IH]; simpl; [reflexivity|].
  apply is_unset_iff in Hrow. rewrite Hrow. now rewrite IH.
Qed.

Lemma unselected_items_none_unset (rs : rows) :
  Forall (fun row => snd row <> None) rs -> unselected_items rs = [].
Proof.
  intros H. rewrite unselected_items_filter.
  induction H as [|row rs Hrow _ IH]; simpl; [reflexivity|].
  destruct (is_unset row) eqn:E; [|exact IH].
  apply is_unset_iff in E. contradiction.
Qed.

Lemma unselected_items_some_unset (rs : rows) :
  Exists (fun row => snd row = None) rs -> truthy (unselected_items rs) = true.
Proof.
  intros H. rewrite unselected_items_filter.
  induction H as [row rs Hrow | row rs _ IH]; simpl.
  - apply is_unset_iff in Hrow. now rewrite Hrow.
  - destruct (is_unset row); [reflexivity | exact IH].
Qed.

Lemma unselected_items_are_unset (rs : rows) (s : string) :
  In s (unselected_items rs) -> In (s, None) rs.
Proof.
  rewrite unselected_items_filter, in_map_iff.
  intros [[s' bg] [Hs Hin]]. simpl in Hs; subst s'.
  apply filter_In in Hin. destruct Hin as [Hin Hu].
  apply is_unset_iff in Hu. simpl in Hu. now subst bg.
Qed.

Lemma update_row_length (i : nat) f (rs : rows) :
  length (update_row i f rs) = length rs.
Proof.
  revert i; induction rs as [|[s bg] rs IH]; intros [|i]; simpl; auto.
Qed.

Lemma update_row_labels (i : nat) f (rs : rows) :
  map fst (update_row i f rs) = map fst rs.
Proof.
  revert i; induction rs as [|[s bg] rs IH]; intros [|i]; simpl; auto.
  now rewrite IH.
Qed.

Lemma nth_error_update_row (rs : rows) (i j : nat) f :
  nth_error (update_row j f rs) i =
  if Nat.eqb i j
  then option_map (fun row => (fst row, f (snd row))) (nth_error rs i)
  else nth_error rs i.
Proof.
  revert i j; induction rs as [|[s bg] rs IH]; intros i j.
  - destruct j, i; simpl; try reflexivity.
    destruct (Nat.eqb i j); reflexivity.
  - destruct j as [|j], i as [|i]; simpl; try reflexivity.
    apply IH.
Qed.

(** Visiting the positions after [pre] in turn rewrites exactly the rows
    after [pre]. *)
Lemma update_rows_from (f : button_group -> button_group) (post pre : rows) :
  fold_left (fun acc i => update_row i f acc)
    (seq (length pre) (length post)) (pre ++ post)
  = pre ++ map (fun row => (fst row, f (snd row))) post.
Proof.
  revert pre; induction post as [|[s bg] post IH]; intros pre; simpl.
  - reflexivity.
  - assert (Hupd : update_row (length pre) f (pre ++ (s, bg) :: post)
                   = (pre ++ [(s, f bg)]) ++ post).
    { clear IH. induction pre as [|[s' bg'] pre IHp]; simpl; [reflexivity|].
      now rewrite IHp. }
    rewrite Hupd.
    replace (S (length pre)) with (length (pre ++ [(s, f bg)]))
      by (rewrite length_app; simpl; lia).
    rewrite IH. now rewrite <- app_assoc.
Qed.

Lemma for_each_row_map (f : button_group -> button_group) (rs : rows) :
  for_each_row f rs = map (fun row => (fst row, f (snd row))) rs.
Proof.
  unfold for_each_row. exact (update_rows_from f rs []).
Qed.

Lemma setChecked_true_state (r : radio_id) (bg : button_group) :
  fst (setChecked_true r bg) = Some r.
Proof.
  destruct bg as [r'|]; simpl; [|reflexivity].
  destruct r, r'; reflexivity.
Qed.

Lemma prefix_append (s t : string) : String.prefix s (String.append s t) = true.
Proof.
  induction s as [|a s IH]; simpl.
  - destruct t; reflexivity.
  - destruct (ascii_dec a a); [exact IH | congruence].
Qed.

Lemma occurs_in_unfold (s t : string) :
  occurs_in s t =
  if String.prefix s t then true
  else match t with
       | EmptyString => false
       | String _ t' => occurs_in s t'
       end.
Proof. destruct t; reflexivity. Qed.

Lemma occurs_in_append (pre s post : string) :
  occurs_in s (String.append pre (String.append s post)) = true.
Proof.
  induction pre as [|a pre IH].
  - rewrite occurs_in_unfold. simpl. now rewrite prefix_append.
  - rewrite occurs_in_unfold.
    destruct (String.prefix s _); [reflexivity | exact IH].
Qed.

Lemma append_assoc (a b c : string) :
  String.append (String.append a b) c = String.append a (String.append b c).
Proof. induction a; simpl; congruence. Qed.

Lemma append_empty_r (a : string) : String.append a EmptyString = a.
Proof. induction a; simpl; congruence. Qed.

Lemma join_contains (sep s : string) (items : list string) :
  In s items ->
  exists pre post, join sep items = String.append pre (String.append s post).
Proof.
  induction items as [|x items IH]; intros Hin; [destruct Hin|].
  destruct Hin as [-> | Hin].
  - destruct items as [|y items].
    + exists EmptyString, EmptyString. simpl. now rewrite append_empty_r.
    + exists EmptyString, (String.append sep (join sep (y :: items))).
      reflexivity.
  - destruct (IH Hin) as (pre & post & E).
    destruct items as [|y items]; [destruct Hin|].
    exists (String.append x (String.append sep pre)), post.
    change (join sep (x :: y :: items))
      with (String.append x (String.append sep (join sep (y :: items)))).
    rewrite E. now rewrite !append_assoc.
Qed.

(* ================================================================== *)
(** * The result list and the validation of the OK click *)
(* ================================================================== *)

(** C9. [get_result] pairs a label with "GUI" exactly when the row's GUI
    radio is checked and with "Custom" in every other case, the unset one
    included, and the OK handler of [dynamic_string_widget] emits that list
    in every state: an item never classified is reported as "Custom". *)
Theorem get_result_custom_unless_gui :
  forall (w : dialog) (i : nat) (string_item : string) (bg : button_group),
    nth_error (button_groups w) i = Some (string_item, bg) ->
    let result := get_result (button_groups w) in
    length result = length (button_groups w) /\
    nth_error result i =
      Some (string_item,
            match bg with Some GuiRadio => "GUI" | _ => "Custom" end) /\
    (bg = None -> nth_error result i = Some (string_item, "Custom")) /\
    dynamic_string_widget.on_ok_clicked w = (close w, ResultReady result).
Proof.
  intros w i string_item bg Hrow result. subst result.
  rewrite get_result_map, length_map, nth_error_map, Hrow.
  repeat split.
  - destruct bg as [[|]|]; reflexivity.
  - intros ->. reflexivity.
  - unfold dynamic_string_widget.on_ok_clicked. now rewrite get_result_map.
Qed.

Lemma get_result_custom_unless_gui_witness :
  nth_error (button_groups partly_classified) 2 = Some ("getProfile", None) /\
  nth_error (get_result (button_groups partly_classified)) 2
    = Some ("getProfile", "Custom").
Proof.
  split; [reflexivity|].
  apply (get_result_custom_unless_gui partly_classified 2 "getProfile" None);
    reflexivity.
Defined.

(** C1, as the code has it: for a non-empty input list, the OK click on a
    state in which no row has a checked radio takes the warning branch,
    with [unselected_items] equal to the whole input list in its order;
    nothing is emitted and the state is as before. *)
Theorem commit_all_unset_lists_every_label :
  forall (string_list : list string) (w : dialog),
    string_list <> [] ->
    map fst (button_groups w) = string_list ->
    Forall (fun row => snd row = None) (button_groups w) ->
    design_dynamic_custom_table_3.on_ok_clicked w =
      (w, Warning string_list warning_title
            (design_dynamic_custom_table_3.warning_text string_list)) /\
    select_all_custom_code_box.on_ok_clicked w =
      (w, Warning string_list warning_title generic_warning_text).
Proof.
  intros string_list w Hne Hlabels Hunset.
  unfold design_dynamic_custom_table_3.on_ok_clicked,
    select_all_custom_code_box.on_ok_clicked.
  rewrite (unselected_items_all_unset _ Hunset), Hlabels.
  destruct string_list as [|s l]; [contradiction|].
  split; reflexivity.
Qed.

Lemma commit_all_unset_lists_every_label_witness :
  api_names <> [] /\
  map fst (button_groups (new_dialog api_names)) = api_names /\
  Forall (fun row => snd row = None) (button_groups (new_dialog api_names)) /\
  design_dynamic_custom_table_3.on_ok_clicked (new_dialog api_names) =
    (new_dialog api_names,
     Warning api_names "Incomplete Selection"
       "Please select options for: getUserData, fetchUserInfo, getProfile").
Proof.
  assert (H1 : api_names <> []) by discriminate.
  assert (H2 : map fst (button_groups (new_dialog api_names)) = api_names)
    by reflexivity.
  assert (H3 : Forall (fun row => snd row = None)
                 (button_groups (new_dialog api_names)))
    by (repeat constructor).
  split; [exact H1|]. split; [exact H2|]. split; [exact H3|].
  exact (proj1 (commit_all_unset_lists_every_label
                  api_names (new_dialog api_names) H1 H2 H3)).
Defined.

(** C1 at the empty list: every one of the zero rows is unset, and the OK
    click does not fail; it emits the empty result and closes. *)
Lemma commit_empty_list_succeeds :
  Forall (fun row => snd row = None) (button_groups (new_dialog [])) /\
  design_dynamic_custom_table_3.on_ok_clicked (new_dialog [])
    = (close (new_dialog []), ResultReady []) /\
  select_all_custom_code_box.on_ok_clicked (new_dialog [])
    = (close (new_dialog []), ResultReady []) /\
  (forall labels title text,
      snd (design_dynamic_custom_table_3.on_ok_clicked (new_dialog []))
      <> Warning labels title text).
Proof.
  repeat split; try constructor. intros labels title text. discriminate.
Qed.

(** C10. An OK click on a state with some row unset takes the warning
    branch and returns the state it was given: every row keeps its choice,
    the master boxes and the guard are untouched, and the dialog is not
    closed. *)
Theorem failed_commit_changes_nothing :
  forall (w : dialog) (c : Custom_checkbox_2.widget),
    Exists (fun row => snd row = None) (button_groups w) ->
    Exists (fun row => snd row = None) (Custom_checkbox_2.button_groups c) ->
    (design_dynamic_custom_table.on_ok_clicked w =
       (w, Warning (unselected_items (button_groups w))
             warning_title generic_warning_text)) /\
    (Custom_checkbox_2.on_ok_clicked c =
       (c, Warning (unselected_items (Custom_checkbox_2.button_groups c))
             warning_title generic_warning_text)).
Proof.
  intros w c Hw Hc.
  unfold design_dynamic_custom_table.on_ok_clicked,
    Custom_checkbox_2.on_ok_clicked.
  rewrite (unselected_items_some_unset _ Hw), (unselected_items_some_unset _ Hc).
  split; reflexivity.
Qed.

Lemma failed_commit_changes_nothing_witness :
  Exists (fun row => snd row = None) (button_groups partly_classified) /\
  Exists (fun row => snd row = None)
    (Custom_checkbox_2.button_groups partly_classified_boxes) /\
  design_dynamic_custom_table.on_ok_clicked partly_classified =
    (partly_classified,
     Warning ["getProfile"] warning_title generic_warning_text) /\
  Custom_checkbox_2.on_ok_clicked partly_classified_boxes =
    (partly_classified_boxes,
     Warning ["getProfile"] warning_title generic_warning_text).
Proof.
  assert (H : Exists (fun row : string * button_group => snd row = None)
                (button_groups partly_classified)).
  { apply Exists_cons_tl, Exists_cons_tl, Exists_cons_hd. reflexivity. }
  split; [exact H|]. split; [exact H|].
  exact (failed_commit_changes_nothing
           partly_classified partly_classified_boxes H H).
Defined.

(** C7, as the code has it: only [design_dynamic_custom_table_3] puts the
    labels into the warning, as "Please select options for: " followed by
    the unselected labels joined by ", " in input order, so that each of
    them occurs in the text; [select_all_custom_code_box] and
    [Custom_checkbox_2] show one fixed sentence whatever is missing. *)
Theorem warning_names_labels_in_table_3_only :
  forall (w : dialog) (c : Custom_checkbox_2.widget),
    Exists (fun row => snd row = None) (button_groups w) ->
    Exists (fun row => snd row = None) (Custom_checkbox_2.button_groups c) ->
    (exists text,
        snd (design_dynamic_custom_table_3.on_ok_clicked w) =
          Warning (unselected_items (button_groups w)) warning_title text /\
        text = String.append "Please select options for: "
                 (join ", " (unselected_items (button_groups w))) /\
        forall s, In s (unselected_items (button_groups w)) ->
                  occurs_in s text = true) /\
    snd (select_all_custom_code_box.on_ok_clicked w) =
      Warning (unselected_items (button_groups w)) warning_title
        "Please select all options before proceeding." /\
    snd (Custom_checkbox_2.on_ok_clicked c) =
      Warning (unselected_items (Custom_checkbox_2.button_groups c))
        warning_title "Please select all options before proceeding.".
Proof.
  intros w c Hw Hc.
  unfold design_dynamic_custom_table_3.on_ok_clicked,
    select_all_custom_code_box.on_ok_clicked, Custom_checkbox_2.on_ok_clicked.
  rewrite (unselected_items_some_unset _ Hw), (unselected_items_some_unset _ Hc).
  simpl. split; [|split; reflexivity].
  eexists. split; [reflexivity|]. split; [reflexivity|].
  intros s Hin.
  destruct (join_contains ", " s _ Hin) as (pre & post & E).
  unfold design_dynamic_custom_table_3.warning_text. rewrite E.
  rewrite <- append_assoc. apply occurs_in_append.
Qed.

Lemma warning_names_labels_in_table_3_only_witness :
  Exists (fun row => snd row = None) (button_groups partly_classified) /\
  Exists (fun row => snd row = None)
    (Custom_checkbox_2.button_groups partly_classified_boxes) /\
  snd (Custom_checkbox_2.on_ok_clicked partly_classified_boxes) =
    Warning ["getProfile"] "Incomplete Selection"
      "Please select all options before proceeding.".
Proof.
  assert (H : Exists (fun row : string * button_group => snd row = None)
                (button_groups partly_classified)).
  { apply Exists_cons_tl, Exists_cons_tl, Exists_cons_hd. reflexivity. }
  split; [exact H|]. split; [exact H|].
  exact (proj2 (proj2 (warning_names_labels_in_table_3_only
                         partly_classified partly_classified_boxes H H))).
Defined.

(** C7 on [Custom_checkbox_2] and [select_all_custom_code_box]: with
    "getProfile" left unset the OK click fails, and the text shown does not
    contain the missing label. *)
Lemma generic_warning_omits_missing_label :
  exists text,
    Custom_checkbox_2.on_ok_clicked partly_classified_boxes =
      (partly_classified_boxes, Warning ["getProfile"] warning_title text) /\
    select_all_custom_code_box.on_ok_clicked partly_classified =
      (partly_classified, Warning ["getProfile"] warning_title text) /\
    occurs_in "getProfile" text = false.
Proof.
  exists generic_warning_text. repeat split.
Qed.

Lemma run_clicks_labels (clicks : list (nat * radio_id)) (w : dialog) :
  map fst (button_groups (design_dynamic_custom_table.run_clicks clicks w))
  = map fst (button_groups w).
Proof.
  revert w; induction clicks as [|[j r] clicks IH]; intros w; simpl.
  - reflexivity.
  - unfold design_dynamic_custom_table.run_clicks in IH. rewrite IH. simpl.
    apply update_row_labels.
Qed.

(** Each row ends with the radio clicked last in it. *)
Lemma run_clicks_row (clicks : list (nat * radio_id)) :
  forall (w : dialog) (i : nat) (s : string) (bg : button_group),
    nth_error (button_groups w) i = Some (s, bg) ->
    nth_error
      (button_groups (design_dynamic_custom_table.run_clicks clicks w)) i
    = Some (s, last_choice_from bg clicks i).
Proof.
  induction clicks as [|[j r] clicks IH]; intros w i s bg Hrow; simpl.
  - exact Hrow.
  - unfold design_dynamic_custom_table.run_clicks in IH.
    unfold last_choice_from in *. simpl. apply IH. simpl.
    unfold click_radio_row. rewrite nth_error_update_row, Hrow.
    rewrite (Nat.eqb_sym j i).
    destruct (Nat.eqb i j); simpl; [|reflexivity].
    now rewrite setChecked_true_state.
Qed.

Lemma nth_error_new_dialog (string_list : list string) (i : nat) (s : string) :
  nth_error string_list i = Some s ->
  nth_error (button_groups (new_dialog string_list)) i = Some (s, None).
Proof.
  intros H. simpl. rewrite create_rows_map, nth_error_map, H. reflexivity.
Qed.

(** C4. Once every row has been clicked at least once, the OK click of
    [design_dynamic_custom_table] emits one pair per input string, in input
    order, each string with "GUI" or "Custom" according to the radio
    clicked last in its row, and closes the dialog. *)
Theorem commit_after_classifying_every_item :
  forall (string_list : list string) (clicks : list (nat * radio_id)),
    (forall i, i < length string_list -> last_choice clicks i <> None) ->
    let w := design_dynamic_custom_table.run_clicks clicks
               (new_dialog string_list) in
    exists result,
      design_dynamic_custom_table.on_ok_clicked w
        = (close w, ResultReady result) /\
      map fst result = string_list /\
      forall i string_item r,
        nth_error string_list i = Some string_item ->
        last_choice clicks i = Some r ->
        nth_error result i = Some (string_item, option_text r).
Proof.
  intros string_list clicks Hall w.
  assert (Hlabels : map fst (button_groups w) = string_list).
  { subst w. rewrite run_clicks_labels. simpl.
    rewrite create_rows_map, map_map. apply map_id. }
  assert (Hrow : forall i s, nth_error string_list i = Some s ->
                   nth_error (button_groups w) i = Some (s, last_choice clicks i)).
  { intros i s Hs. subst w. apply run_clicks_row.
    now apply nth_error_new_dialog. }
  assert (Hset : Forall (fun row => snd row <> None) (button_groups w)).
  { apply Forall_forall. intros row Hin.
    destruct (In_nth_error _ _ Hin) as [i Hi].
    assert (Hlt : i < length string_list).
    { rewrite <- Hlabels, length_map.
      apply (proj1 (nth_error_Some (button_groups w) i)).
      intros E. pose proof (eq_trans (eq_sym Hi) E) as F. discriminate F. }
    destruct (nth_error string_list i) as [s|] eqn:Hs;
      [|apply nth_error_None in Hs; lia].
    pose proof (eq_trans (eq_sym Hi) (Hrow i s Hs)) as F.
    injection F as ->. simpl. now apply Hall. }
  exists (get_result (button_groups w)). split; [|split].
  - unfold design_dynamic_custom_table.on_ok_clicked.
    now rewrite (unselected_items_none_unset _ Hset).
  - rewrite get_result_map, map_map. exact Hlabels.
  - intros i s r Hs Hr.
    rewrite get_result_map, nth_error_map, (Hrow i s Hs), Hr.
    destruct r; reflexivity.
Qed.

Lemma commit_after_classifying_every_item_witness :
  (forall i, i < length api_names -> last_choice classifying_clicks i <> None) /\
  exists result,
    design_dynamic_custom_table.on_ok_clicked
      (design_dynamic_custom_table.run_clicks classifying_clicks
         (new_dialog api_names))
    = (close (design_dynamic_custom_table.run_clicks classifying_clicks
                (new_dialog api_names)),
       ResultReady result) /\
    map fst result = api_names /\
    forall i string_item r,
      nth_error api_names i = Some string_item ->
      last_choice classifying_clicks i = Some r ->
      nth_error result i = Some (string_item, option_text r).
Proof.
  assert (H : forall i, i < length api_names ->
                        last_choice classifying_clicks i <> None).
  { intros i Hi. simpl in Hi.
    destruct i as [|[|[|i]]]; [discriminate | discriminate | discriminate | lia]. }
  split; [exact H|].
  exact (commit_after_classifying_every_item api_names classifying_clicks H).
Defined.

(** The run of section 8 of the specification, on the code. *)
Example commit_api_names :
  snd (design_dynamic_custom_table.on_ok_clicked
         (design_dynamic_custom_table.run_clicks classifying_clicks
            (new_dialog api_names)))
  = ResultReady
      [("getUserData", "GUI"); ("fetchUserInfo", "Custom"); ("getProfile", "GUI")].
Proof. reflexivity. Qed.

(* ================================================================== *)
(** * The master controls without slots on the radio buttons *)
(* ================================================================== *)

Lemma set_row_choice_twice (c d : button_group) (rs : rows) :
  set_row_choice c (set_row_choice d rs) = set_row_choice c rs.
Proof. unfold set_row_choice. rewrite map_map. reflexivity. Qed.

Lemma set_row_choice_all (c : button_group) (rs : rows) :
  Forall (fun row => snd row = c) (set_row_choice c rs).
Proof. induction rs; simpl; constructor; auto. Qed.

Lemma clear_button_refused (bg : button_group) : clear_button bg = (bg, 0).
Proof. destruct bg; reflexivity. Qed.

Lemma check_every_row (r : radio_id) (rs : rows) :
  for_each_row (fun bg => fst (setChecked_true r bg)) rs
  = set_row_choice (Some r) rs.
Proof.
  rewrite for_each_row_map. apply map_ext.
  intros [s bg]. simpl. now rewrite setChecked_true_state.
Qed.

Lemma clear_every_row (rs : rows) :
  for_each_row (fun bg => fst (clear_button bg)) rs = rs.
Proof.
  rewrite for_each_row_map. rewrite <- (map_id rs) at 2. apply map_ext.
  intros [s bg]. now rewrite clear_button_refused.
Qed.

Lemma forallb_checked_is_set (r : radio_id) (rs : rows) :
  forallb (fun '(_, bg) => (checkedId bg =? id_of r)%Z) rs = true ->
  set_row_choice (Some r) rs = rs.
Proof.
  induction rs as [|[s bg] rs IH]; simpl; [reflexivity|].
  intros H. apply andb_prop in H. destruct H as [Hbg Hrs].
  rewrite (IH Hrs). f_equal. f_equal.
  destruct bg as [[|]|], r; simpl in Hbg; congruence.
Qed.

(** Whatever the rows were, a header button leaves every row on its own
    option: the branch that should clear finds every row there already and
    the toolkit refuses the unchecking. *)
Lemma select_all_gui_rows (w : dialog) :
  button_groups (select_all_custom_code_box.select_all_gui w)
  = set_row_choice (Some GuiRadio) (button_groups w).
Proof.
  unfold select_all_custom_code_box.select_all_gui.
  destruct (select_all_custom_code_box.are_all_gui_selected w) eqn:E; simpl.
  - rewrite clear_every_row. symmetry.
    now apply (forallb_checked_is_set GuiRadio).
  - apply check_every_row.
Qed.

Lemma select_all_custom_rows (w : dialog) :
  button_groups (select_all_custom_code_box.select_all_custom w)
  = set_row_choice (Some CustomRadio) (button_groups w).
Proof.
  unfold select_all_custom_code_box.select_all_custom.
  destruct (select_all_custom_code_box.are_all_custom_selected w) eqn:E; simpl.
  - rewrite clear_every_row. symmetry.
    now apply (forallb_checked_is_set CustomRadio).
  - apply check_every_row.
Qed.

(** C6 on the code, toggle-to-clear half.  In [select_all_custom_code_box]
    the second click on "GUI" finds every row on GUI and runs
    [clear_all_selections], whose unchecking the toolkit refuses: after two
    clicks on a new dialog every row is still GUI, while the docstring of
    [select_all_gui] and the instructions printed by [main] say the rows are
    deselected.  The state is not the all-unset one of section 8. *)
Theorem gui_button_twice_keeps_gui :
  button_groups gui_button_twice
  = [("getUserData", Some GuiRadio);
     ("fetchUserInfo", Some GuiRadio);
     ("getProfile", Some GuiRadio)] /\
  gui_button_twice = all_gui_by_button /\
  select_all_custom_code_box.clear_all_selections all_gui_by_button
  = all_gui_by_button /\
  unselected_items (button_groups gui_button_twice) = [] /\
  ~ Forall (fun row => snd row = None) (button_groups gui_button_twice).
Proof.
  repeat split. intros H. inversion H as [|? ? Hrow _]. discriminate Hrow.
Qed.

(** The toggle-to-flip half of the same sentence, on
    [string_popup_dynamic_widget]: two clicks on the GUI check box, starting
    with that box unchecked, leave every row Custom, the Custom box checked
    and the GUI box unchecked. *)
Lemma popup_gui_box_twice (p : string_popup_dynamic_widget.widget) :
  string_popup_dynamic_widget.gui_checkbox p = false ->
  let p2 := string_popup_dynamic_widget.click_gui_checkbox
              (string_popup_dynamic_widget.click_gui_checkbox p) in
  string_popup_dynamic_widget.button_groups p2
    = set_row_choice (Some CustomRadio)
        (string_popup_dynamic_widget.button_groups p) /\
  string_popup_dynamic_widget.gui_checkbox p2 = false /\
  string_popup_dynamic_widget.custom_checkbox p2 = true.
Proof.
  intros Hp.
  unfold string_popup_dynamic_widget.click_gui_checkbox,
    string_popup_dynamic_widget.on_gui_checkbox_clicked,
    string_popup_dynamic_widget.check_all.
  simpl. rewrite Hp. simpl. rewrite !check_every_row, set_row_choice_twice.
  repeat split.
Qed.

(* ================================================================== *)
(** * Custom_checkbox_2: the guard and the master check boxes *)
(* ================================================================== *)

Section Guarded_runs.
Import Custom_checkbox_2.

Lemma set_rows_same (w : widget) : set_rows (button_groups w) w = w.
Proof. destruct w; reflexivity. Qed.

Lemma slot_guarded (w : widget) :
  updating_checkboxes w = true ->
  on_radio_button_changed w = (w, [Suppressed]).
Proof. intros H. unfold on_radio_button_changed. now rewrite H. Qed.

Lemma emit_guarded (n : nat) (w : widget) :
  updating_checkboxes w = true ->
  emit_toggled n w = (w, repeat Suppressed n).
Proof.
  intros H. induction n as [|n IH]; simpl; [reflexivity|].
  unfold and_then. rewrite (slot_guarded w H), IH. reflexivity.
Qed.

Lemma on_row_guarded (i : nat) call (w : widget) s bg :
  updating_checkboxes w = true ->
  nth_error (button_groups w) i = Some (s, bg) ->
  on_row i call w =
    (set_rows (update_row i (fun _ => fst (call bg)) (button_groups w)) w,
     repeat Suppressed (snd (call bg))).
Proof.
  intros Hu Hrow. unfold on_row. rewrite Hrow.
  destruct (call bg) as [bg' signals]. simpl.
  now apply emit_guarded.
Qed.

Lemma update_row_at (pre post : rows) s bg f :
  update_row (length pre) f (pre ++ (s, bg) :: post)
  = (pre ++ [(s, f bg)]) ++ post.
Proof.
  induction pre as [|[s' bg'] pre IH]; simpl; [reflexivity|].
  now rewrite IH.
Qed.

(** While the guard is up, the loop over the rows changes the groups of
    the rows and nothing else, and every signal it raises is answered by
    the slot's early return. *)
Lemma for_each_guarded call (post pre : rows) (w : widget) :
  updating_checkboxes w = true ->
  button_groups w = pre ++ post ->
  for_each (seq (length pre) (length post)) (fun i => on_row i call) w =
    (set_rows
       (pre ++ map (fun row => (fst row, fst (call (snd row)))) post) w,
     flat_map (fun row => repeat Suppressed (snd (call (snd row)))) post).
Proof.
  revert pre w; induction post as [|[s bg] post IH]; intros pre w Hu Hrows.
  - simpl. unfold skip. rewrite <- Hrows, set_rows_same. reflexivity.
  - simpl. unfold and_then.
    assert (Hnth : nth_error (button_groups w) (length pre) = Some (s, bg)).
    { rewrite Hrows, nth_error_app2, Nat.sub_diag by lia. reflexivity. }
    rewrite (on_row_guarded _ call w s bg Hu Hnth).
    rewrite Hrows, update_row_at.
    replace (S (length pre)) with (length (pre ++ [(s, fst (call bg))]))
      by (rewrite length_app; simpl; lia).
    rewrite (IH (pre ++ [(s, fst (call bg))])); [|exact Hu|reflexivity].
    rewrite <- app_assoc. destruct w; reflexivity.
Qed.

Lemma for_each_index_guarded call (w : widget) :
  updating_checkboxes w = true ->
  for_each_index (fun i => on_row i call) w =
    (set_rows
       (map (fun row => (fst row, fst (call (snd row)))) (button_groups w)) w,
     flat_map (fun row => repeat Suppressed (snd (call (snd row))))
       (button_groups w)).
Proof.
  intros Hu. unfold for_each_index.
  exact (for_each_guarded call (button_groups w) [] w Hu eq_refl).
Qed.

Lemma check_rows_map (r : radio_id) (rs : rows) :
  map (fun row => (fst row, fst (setChecked_true r (snd row)))) rs
  = set_row_choice (Some r) rs.
Proof.
  apply map_ext. intros [s bg]. simpl. now rewrite setChecked_true_state.
Qed.

Lemma clear_rows_map (rs : rows) :
  map (fun row => (fst row, fst (clear_button (snd row)))) rs = rs.
Proof.
  rewrite <- (map_id rs) at 2. apply map_ext.
  intros [s bg]. now rewrite clear_button_refused.
Qed.

Lemma clear_raises_nothing (rs : rows) :
  flat_map (fun row => repeat Suppressed (snd (clear_button (snd row)))) rs
  = [].
Proof.
  induction rs as [|[s bg] rs IH]; simpl; [reflexivity|].
  now rewrite clear_button_refused.
Qed.

(** What a click on a master check box does, in one step. *)
Lemma click_gui_checkbox_run (w : widget) :
  updating_checkboxes w = false ->
  click_gui_checkbox w =
    if negb (gui_checkbox w) then
      ({| button_groups := set_row_choice (Some GuiRadio) (button_groups w);
          gui_checkbox := true;
          custom_checkbox := false;
          updating_checkboxes := false;
          closed := closed w |},
       flat_map (fun row => repeat Suppressed
                              (snd (setChecked_true GuiRadio (snd row))))
         (button_groups w))
    else
      ({| button_groups := button_groups w;
          gui_checkbox := false;
          custom_checkbox := custom_checkbox w;
          updating_checkboxes := false;
          closed := closed w |},
       []).
Proof.
  intros Hu.
  unfold click_gui_checkbox, on_gui_checkbox_clicked, and_then, modify.
  cbn [updating_checkboxes set_gui_checkbox]. rewrite Hu.
  cbn [gui_checkbox set_updating].
  destruct (negb (gui_checkbox w)).
  - unfold radio_setChecked.
    rewrite for_each_index_guarded by reflexivity.
    cbn. rewrite check_rows_map, !app_nil_r. reflexivity.
  - unfold clear_all_selections.
    rewrite for_each_index_guarded by reflexivity.
    cbn. rewrite clear_rows_map, clear_raises_nothing. reflexivity.
Qed.

Lemma click_custom_checkbox_run (w : widget) :
  updating_checkboxes w = false ->
  click_custom_checkbox w =
    if negb (custom_checkbox w) then
      ({| button_groups := set_row_choice (Some CustomRadio) (button_groups w);
          gui_checkbox := false;
          custom_checkbox := true;
          updating_checkboxes := false;
          closed := closed w |},
       flat_map (fun row => repeat Suppressed
                              (snd (setChecked_true CustomRadio (snd row))))
         (button_groups w))
    else
      ({| button_groups := button_groups w;
          gui_checkbox := gui_checkbox w;
          custom_checkbox := false;
          updating_checkboxes := false;
          closed := closed w |},
       []).
Proof.
  intros Hu.
  unfold click_custom_checkbox, on_custom_checkbox_clicked, and_then, modify.
  cbn [updating_checkboxes set_custom_checkbox]. rewrite Hu.
  cbn [custom_checkbox set_updating].
  destruct (negb (custom_checkbox w)).
  - unfold radio_setChecked.
    rewrite for_each_index_guarded by reflexivity.
    cbn. rewrite check_rows_map, !app_nil_r. reflexivity.
  - unfold clear_all_selections.
    rewrite for_each_index_guarded by reflexivity.
    cbn. rewrite clear_rows_map, clear_raises_nothing. reflexivity.
Qed.

Lemma flat_map_suppressed {A : Type} (k : A -> nat) (l : list A) :
  Forall (fun e => e = Suppressed)
    (flat_map (fun x => repeat Suppressed (k x)) l).
Proof.
  induction l as [|x l IH]; simpl; [constructor|].
  apply Forall_app. split; [|exact IH].
  apply Forall_forall. intros e He. now apply repeat_spec in He.
Qed.

End Guarded_runs.

(** C8. A click on a master check box, arriving with the guard down, runs
    with the guard up.  When the click checks the box, each [toggled]
    signal raised by the radio buttons it writes reaches
    [on_radio_button_changed], which returns at its guard: no recomputation
    of the check boxes happens inside the click, and the click ends with
    every row checked in the clicked column and the other box unchecked.
    When the click unchecks the box, the toolkit refuses the unchecking of
    the radio buttons, so no signal is raised and the rows stay as they
    were.  Either way the slot never recomputes inside the click and the
    guard is down again at the end. *)
Theorem master_click_is_one_transition :
  forall (w : Custom_checkbox_2.widget) (r : radio_id),
    Custom_checkbox_2.updating_checkboxes w = false ->
    let mine := match r with
                | GuiRadio => Custom_checkbox_2.gui_checkbox w
                | CustomRadio => Custom_checkbox_2.custom_checkbox w
                end in
    let other := match r with
                 | GuiRadio => Custom_checkbox_2.custom_checkbox w
                 | CustomRadio => Custom_checkbox_2.gui_checkbox w
                 end in
    let w' := fst (Custom_checkbox_2.perform
                     (Custom_checkbox_2.ActivateMaster r) w) in
    let log := snd (Custom_checkbox_2.perform
                      (Custom_checkbox_2.ActivateMaster r) w) in
    log = (if negb mine
           then flat_map
                  (fun row => repeat Custom_checkbox_2.Suppressed
                                (snd (setChecked_true r (snd row))))
                  (Custom_checkbox_2.button_groups w)
           else []) /\
    Forall (fun e => e = Custom_checkbox_2.Suppressed) log /\
    Custom_checkbox_2.updating_checkboxes w' = false /\
    Custom_checkbox_2.closed w' = Custom_checkbox_2.closed w /\
    Custom_checkbox_2.button_groups w' =
      (if negb mine
       then set_row_choice (Some r) (Custom_checkbox_2.button_groups w)
       else Custom_checkbox_2.button_groups w) /\
    match r with
    | GuiRadio =>
        Custom_checkbox_2.gui_checkbox w' = negb mine /\
        Custom_checkbox_2.custom_checkbox w' = if negb mine then false else other
    | CustomRadio =>
        Custom_checkbox_2.custom_checkbox w' = negb mine /\
        Custom_checkbox_2.gui_checkbox w' = if negb mine then false else other
    end.
Proof.
  intros w r Hu mine other w' log.
  subst w' log mine other. destruct r; simpl.
  - rewrite (click_gui_checkbox_run w Hu).
    destruct (negb (Custom_checkbox_2.gui_checkbox w)); simpl;
      repeat split; try apply flat_map_suppressed; constructor.
  - rewrite (click_custom_checkbox_run w Hu).
    destruct (negb (Custom_checkbox_2.custom_checkbox w)); simpl;
      repeat split; try apply flat_map_suppressed; constructor.
Qed.

Lemma master_click_is_one_transition_witness :
  Custom_checkbox_2.updating_checkboxes partly_classified_boxes = false /\
  snd (Custom_checkbox_2.perform
         (Custom_checkbox_2.ActivateMaster GuiRadio) partly_classified_boxes)
  = [Custom_checkbox_2.Suppressed; Custom_checkbox_2.Suppressed;
     Custom_checkbox_2.Suppressed].
Proof.
  split; [reflexivity|].
  exact (proj1 (master_click_is_one_transition
                  partly_classified_boxes GuiRadio eq_refl)).
Defined.

(** Outside a master click the same slot does recompute: the guard, not
    the slot, is what keeps the click in one piece. *)
Example radio_click_recomputes :
  snd (Custom_checkbox_2.perform
         (Custom_checkbox_2.ToggleItem 1 GuiRadio) partly_classified_boxes)
  = [Custom_checkbox_2.Recomputed; Custom_checkbox_2.Recomputed].
Proof. reflexivity. Qed.

Section Between_gestures.
Import Custom_checkbox_2.

Lemma count_checked_filter (k : Z) (rs : rows) :
  count_checked k rs
  = length (filter (fun row => (checkedId (snd row) =? k)%Z) rs).
Proof.
  unfold count_checked.
  assert (G : forall acc,
             fold_left
               (fun acc '(_, bg) =>
                  if (checkedId bg =? k)%Z then acc + 1 else acc) rs acc
             = acc + length (filter (fun row => (checkedId (snd row) =? k)%Z) rs)).
  { induction rs as [|[s bg] rs IH]; intros acc; simpl; [lia|].
    rewrite IH. destruct (checkedId bg =? k)%Z; simpl; lia. }
  apply G.
Qed.

Lemma checkedId_is (r : radio_id) (bg : button_group) :
  (checkedId bg =? id_of r)%Z = true <-> bg = Some r.
Proof.
  destruct bg as [[|]|], r; simpl; split; congruence.
Qed.

Lemma count_checked_all (r : radio_id) (rs : rows) :
  Nat.eqb (count_checked (id_of r) rs) (length rs) = true
  <-> all_rows (Some r) rs.
Proof.
  rewrite count_checked_filter, Nat.eqb_eq. unfold all_rows.
  induction rs as [|[s bg] rs IH]; simpl.
  - split; [constructor | reflexivity].
  - pose proof (filter_length_le
                  (fun row => (checkedId (snd row) =? id_of r)%Z) rs) as Hle.
    destruct (checkedId bg =? id_of r)%Z eqn:E; simpl.
    + apply checkedId_is in E. split.
      * intros H. constructor; [exact E | apply IH; lia].
      * intros H. inversion H; subst. f_equal. now apply IH.
    + split; [lia|].
      intros H. inversion H as [|? ? Hbg _]; subst. simpl in Hbg.
      apply checkedId_is in Hbg. congruence.
Qed.

Lemma derived_rule (w : widget) : derived w -> derivation_rule w.
Proof.
  intros [Hg Hc]. unfold derivation_rule. rewrite Hg, Hc.
  split.
  - exact (count_checked_all GuiRadio (button_groups w)).
  - exact (count_checked_all CustomRadio (button_groups w)).
Qed.

Lemma derived_exclusive (w : widget) :
  button_groups w <> [] -> derived w -> mutually_exclusive w.
Proof.
  intros Hne Hd. apply derived_rule in Hd. destruct Hd as [Hg Hc].
  assert (Hno : ~ (all_rows (Some GuiRadio) (button_groups w) /\
                   all_rows (Some CustomRadio) (button_groups w))).
  { destruct (button_groups w) as [|row rs]; [contradiction|].
    intros [H1 H2]. inversion H1; inversion H2; subst. congruence. }
  split; intros H.
  - destruct (custom_checkbox w) eqn:E; [|reflexivity].
    exfalso. apply Hno. split; [now apply Hg | now apply Hc].
  - destruct (gui_checkbox w) eqn:E; [|reflexivity].
    exfalso. apply Hno. split; [now apply Hg | now apply Hc].
Qed.

(** The slot outside a master click. *)
Lemma slot_recomputes (w : widget) :
  updating_checkboxes w = false ->
  let w' := fst (on_radio_button_changed w) in
  button_groups w' = button_groups w /\
  updating_checkboxes w' = false /\
  derived w'.
Proof.
  intros Hu. unfold on_radio_button_changed, update_checkbox_states_from_radios.
  rewrite Hu. simpl. repeat split.
Qed.

Lemma slot_rows (w : widget) :
  button_groups (fst (on_radio_button_changed w)) = button_groups w.
Proof.
  destruct (updating_checkboxes w) eqn:Hu.
  - now rewrite slot_guarded.
  - now apply slot_recomputes.
Qed.

Lemma emit_rows (n : nat) (w : widget) :
  button_groups (fst (emit_toggled n w)) = button_groups w.
Proof.
  revert w; induction n as [|n IH]; intros w; simpl; [reflexivity|].
  unfold and_then.
  pose proof (slot_rows w) as Hs.
  destruct (on_radio_button_changed w) as [w1 l1]. simpl in Hs.
  specialize (IH w1). destruct (emit_toggled n w1) as [w2 l2]. simpl in *.
  congruence.
Qed.

Lemma emit_recomputes (n : nat) (w : widget) :
  updating_checkboxes w = false ->
  let w' := fst (emit_toggled (S n) w) in
  updating_checkboxes w' = false /\ derived w'.
Proof.
  revert w; induction n as [|n IH]; intros w Hu.
  - simpl. unfold and_then, skip.
    destruct (slot_recomputes w Hu) as (_ & H2 & H3).
    destruct (on_radio_button_changed w) as [w1 l1]. simpl in *. auto.
  - change (emit_toggled (S (S n)))
      with (on_radio_button_changed ;; emit_toggled (S n)).
    unfold and_then.
    destruct (slot_recomputes w Hu) as (_ & H2 & _).
    destruct (on_radio_button_changed w) as [w1 l1]. simpl in H2.
    specialize (IH w1 H2).
    destruct (emit_toggled (S n) w1) as [w2 l2]. exact IH.
Qed.

Lemma update_row_same (rs : rows) (i : nat) s bg :
  nth_error rs i = Some (s, bg) -> update_row i (fun _ => bg) rs = rs.
Proof.
  revert i; induction rs as [|[s' bg'] rs IH]; intros [|i] H; simpl in *;
    try discriminate.
  - now injection H as -> ->.
  - now rewrite IH.
Qed.

Lemma update_row_const (rs : rows) (i : nat) s bg f :
  nth_error rs i = Some (s, bg) ->
  update_row i (fun _ => f bg) rs = update_row i f rs.
Proof.
  revert i; induction rs as [|[s' bg'] rs IH]; intros [|i] H; simpl in *;
    try discriminate.
  - now injection H as -> ->.
  - now rewrite IH.
Qed.

Lemma update_row_outside (rs : rows) (i : nat) f :
  nth_error rs i = None -> update_row i f rs = rs.
Proof.
  revert i; induction rs as [|[s' bg'] rs IH]; intros [|i] H; simpl in *;
    try discriminate; try reflexivity.
  now rewrite IH.
Qed.

(** Whatever the guard says, a toolkit call on a row changes the rows as
    the call says; the slot never writes a radio button. *)
Lemma on_row_rows (i : nat) call (w : widget) :
  button_groups (fst (on_row i call w))
  = update_row i (fun bg => fst (call bg)) (button_groups w).
Proof.
  unfold on_row.
  destruct (nth_error (button_groups w) i) as [[s bg]|] eqn:Hrow.
  - rewrite <- (update_row_const _ _ s bg (fun b => fst (call b)) Hrow).
    destruct (call bg) as [bg' signals]. simpl.
    now rewrite emit_rows.
  - simpl. now rewrite update_row_outside.
Qed.

Lemma setChecked_true_quiet (r : radio_id) :
  quiet_when_unchanged (setChecked_true r).
Proof. intros [[|]|]; destruct r; simpl; congruence. Qed.

Lemma clear_button_quiet : quiet_when_unchanged clear_button.
Proof. intros [[|]|]; simpl; congruence. Qed.

Lemma on_row_consistent (i : nat) call (w : widget) :
  quiet_when_unchanged call ->
  consistent w -> consistent (fst (on_row i call w)).
Proof.
  intros Hq Hw.
  pose proof (on_row_rows i call w) as Hrows.
  unfold on_row in *.
  destruct (nth_error (button_groups w) i) as [[s bg]|] eqn:Hrow;
    [|exact Hw].
  pose proof (Hq bg) as Hq'.
  destruct (call bg) as [bg' [|n]] eqn:Hcall; simpl in Hq'.
  - rewrite Hq' by reflexivity. simpl.
    now rewrite (update_row_same _ _ _ _ Hrow), set_rows_same.
  - destruct Hw as (Hu & _ & _).
    set (w1 := set_rows (update_row i (fun _ => bg') (button_groups w)) w)
      in *.
    destruct (emit_recomputes n w1 Hu) as [Hu' Hd].
    assert (Hne : button_groups (fst (emit_toggled (S n) w1)) <> []).
    { rewrite emit_rows. subst w1. simpl. intros E.
      apply (f_equal (@length _)) in E.
      rewrite update_row_length in E. simpl in E.
      apply length_zero_iff_nil in E. rewrite E in Hrow.
      destruct i; discriminate. }
    split; [exact Hu'|]. split; [now apply derived_exclusive|].
    destruct (derived_rule _ Hd) as [Hg Hc].
    split; intros H; [now apply Hg | now apply Hc].
Qed.

Lemma for_each_keeps {A : Type} (P : widget -> Prop) (body : A -> action)
      (xs : list A) :
  (forall x w, P w -> P (fst (body x w))) ->
  forall w, P w -> P (fst (for_each xs body w)).
Proof.
  intros Hbody. induction xs as [|x xs IH]; intros w Hw; simpl.
  - exact Hw.
  - unfold and_then. specialize (Hbody x w Hw).
    destruct (body x w) as [w1 l1]. simpl in Hbody.
    specialize (IH w1 Hbody). destruct (for_each xs body w1). exact IH.
Qed.

Lemma for_each_rows call (idxs : list nat) (w : widget) :
  button_groups (fst (for_each idxs (fun i => on_row i call) w))
  = fold_left (fun acc i => update_row i (fun bg => fst (call bg)) acc)
      idxs (button_groups w).
Proof.
  revert w; induction idxs as [|i idxs IH]; intros w; simpl.
  - reflexivity.
  - unfold and_then. pose proof (on_row_rows i call w) as H.
    destruct (on_row i call w) as [w1 l1]. simpl in H.
    specialize (IH w1).
    destruct (for_each idxs (fun i => on_row i call) w1) as [w2 l2].
    simpl in *. now rewrite IH, H.
Qed.

Lemma clear_all_selections_rows (w : widget) :
  button_groups (fst (clear_all_selections w)) = button_groups w.
Proof.
  unfold clear_all_selections, for_each_index.
  rewrite for_each_rows. apply clear_every_row.
Qed.

Lemma step_rows_labels (g : gesture) (w : widget) :
  updating_checkboxes w = false ->
  map fst (button_groups (step g w)) = map fst (button_groups w).
Proof.
  intros Hu. unfold step. destruct g as [i r | [|] | ]; simpl.
  - unfold radio_setChecked. rewrite on_row_rows. apply update_row_labels.
  - rewrite (click_gui_checkbox_run w Hu).
    destruct (negb (gui_checkbox w)); simpl; [|reflexivity].
    unfold set_row_choice; now rewrite map_map.
  - rewrite (click_custom_checkbox_run w Hu).
    destruct (negb (custom_checkbox w)); simpl; [|reflexivity].
    unfold set_row_choice; now rewrite map_map.
  - now rewrite clear_all_selections_rows.
Qed.

Lemma step_consistent (g : gesture) (w : widget) :
  consistent w -> consistent (step g w).
Proof.
  intros Hw. unfold step. destruct g as [i r | [|] | ]; simpl.
  - apply on_row_consistent; [apply setChecked_true_quiet | exact Hw].
  - destruct Hw as (Hu & [Hgc Hcg] & Kg & Kc).
    rewrite (click_gui_checkbox_run w Hu).
    destruct (gui_checkbox w) eqn:G; simpl.
    + split; [reflexivity|]. split; [split; simpl; auto|].
      split; simpl; [discriminate | exact Kc].
    + split; [reflexivity|]. split; [split; simpl; congruence|].
      split; simpl; [|discriminate].
      intros _. apply set_row_choice_all.
  - destruct Hw as (Hu & [Hgc Hcg] & Kg & Kc).
    rewrite (click_custom_checkbox_run w Hu).
    destruct (custom_checkbox w) eqn:C; simpl.
    + split; [reflexivity|]. split; [split; simpl; auto|].
      split; simpl; [exact Kg | discriminate].
    + split; [reflexivity|]. split; [split; simpl; congruence|].
      split; simpl; [discriminate|].
      intros _. apply set_row_choice_all.
  - unfold clear_all_selections, for_each_index.
    apply for_each_keeps; [|exact Hw].
    intros i w0 Hw0. now apply on_row_consistent; [apply clear_button_quiet|].
Qed.

Lemma new_widget_consistent (string_list : list string) :
  consistent (new_widget string_list).
Proof.
  split; [reflexivity|]. split; [split; discriminate|].
  split; discriminate.
Qed.

(** Between gestures the guard is down, the boxes exclude each other, a
    checked box has its whole column checked, and the labels are those of
    the input list. *)
Lemma reachable_consistent (string_list : list string) (w : widget) :
  reachable string_list w ->
  consistent w /\ map fst (button_groups w) = string_list.
Proof.
  induction 1 as [|w g _ [IHc IHl]].
  - split; [apply new_widget_consistent|].
    simpl. rewrite create_rows_map, map_map. apply map_id.
  - split; [now apply step_consistent|].
    rewrite step_rows_labels; [exact IHl | apply IHc].
Qed.

End Between_gestures.

(** C2 on the code.  In [Custom_checkbox_2] the click that unchecks a
    master check box prints "clearing all selections" and runs
    [clear_all_selections], whose unchecking the toolkit refuses: after
    checking and then unchecking the GUI box on a three-row dialog, the GUI
    box is unchecked while every row still holds GUI, and the guard has kept
    the slot from recomputing.  The derivation rule does not hold after this
    master click. *)
Theorem unchecked_master_keeps_its_column :
  Custom_checkbox_2.reachable api_names gui_box_checked_then_unchecked /\
  Custom_checkbox_2.button_groups gui_box_checked_then_unchecked
  = [("getUserData", Some GuiRadio);
     ("fetchUserInfo", Some GuiRadio);
     ("getProfile", Some GuiRadio)] /\
  Custom_checkbox_2.gui_checkbox gui_box_checked_then_unchecked = false /\
  Custom_checkbox_2.custom_checkbox gui_box_checked_then_unchecked = false /\
  Custom_checkbox_2.derivation_rule gui_box_checked /\
  ~ Custom_checkbox_2.derivation_rule gui_box_checked_then_unchecked.
Proof.
  split; [repeat constructor|]. split; [reflexivity|].
  split; [reflexivity|]. split; [reflexivity|]. split.
  - split; split; intros H; try reflexivity; try discriminate H.
    + repeat constructor.
    + inversion H as [|? ? Hrow _]. discriminate Hrow.
  - intros [[_ H] _].
    assert (F : Custom_checkbox_2.gui_checkbox gui_box_checked_then_unchecked
                = true) by (apply H; repeat constructor).
    discriminate F.
Qed.

(** The dialog without rows: a click on the GUI check box leaves it checked
    and the Custom box unchecked, while each of the zero rows holds Custom
    (the test [custom_count == total_count] of the file is 0 == 0 there). *)
Lemma derivation_fails_without_rows :
  Custom_checkbox_2.reachable [] (Custom_checkbox_2.new_widget []) /\
  Nat.eqb (Custom_checkbox_2.count_checked 1 []) (length (@nil (string * button_group)))
  = true /\
  Custom_checkbox_2.custom_checkbox
    (Custom_checkbox_2.step (Custom_checkbox_2.ActivateMaster GuiRadio)
       (Custom_checkbox_2.new_widget [])) = false /\
  Custom_checkbox_2.all_rows (Some CustomRadio)
    (Custom_checkbox_2.button_groups
       (Custom_checkbox_2.step (Custom_checkbox_2.ActivateMaster GuiRadio)
          (Custom_checkbox_2.new_widget []))) /\
  ~ Custom_checkbox_2.derivation_rule
      (Custom_checkbox_2.step (Custom_checkbox_2.ActivateMaster GuiRadio)
         (Custom_checkbox_2.new_widget [])).
Proof.
  split; [constructor|]. split; [reflexivity|].
  split; [reflexivity|]. split; [constructor|].
  intros [_ [_ H]]. specialize (H (Forall_nil _)). discriminate H.
Qed.

Lemma popup_step_exclusive (g : string_popup_dynamic_widget.gesture)
      (p : string_popup_dynamic_widget.widget) :
  string_popup_dynamic_widget.mutually_exclusive p ->
  string_popup_dynamic_widget.mutually_exclusive
    (string_popup_dynamic_widget.step g p).
Proof.
  intros [H1 H2]. destruct g as [i r | [|]]; simpl.
  - split; assumption.
  - unfold string_popup_dynamic_widget.click_gui_checkbox,
      string_popup_dynamic_widget.on_gui_checkbox_clicked.
    simpl. destruct (string_popup_dynamic_widget.gui_checkbox p);
      split; simpl; congruence.
  - unfold string_popup_dynamic_widget.click_custom_checkbox,
      string_popup_dynamic_widget.on_custom_checkbox_clicked.
    simpl. destruct (string_popup_dynamic_widget.custom_checkbox p);
      split; simpl; congruence.
Qed.

(** C3. In every state reached from a new dialog by radio clicks, clicks
    on the master check boxes and (where the file has it) clearing, at most
    one master check box is checked; in [Custom_checkbox_2] and in
    [string_popup_dynamic_widget], for any input list. *)
Theorem masters_mutually_exclusive :
  forall (string_list : list string)
         (w : Custom_checkbox_2.widget)
         (p : string_popup_dynamic_widget.widget),
    Custom_checkbox_2.reachable string_list w ->
    string_popup_dynamic_widget.reachable string_list p ->
    Custom_checkbox_2.mutually_exclusive w /\
    string_popup_dynamic_widget.mutually_exclusive p.
Proof.
  intros string_list w p Hw Hp. split.
  - now destruct (reachable_consistent _ _ Hw) as [(_ & H & _) _].
  - induction Hp as [|p g _ IH].
    + split; discriminate.
    + now apply popup_step_exclusive.
Qed.

Lemma masters_mutually_exclusive_witness :
  Custom_checkbox_2.reachable api_names
    (Custom_checkbox_2.step (Custom_checkbox_2.ActivateMaster CustomRadio)
       (Custom_checkbox_2.step (Custom_checkbox_2.ActivateMaster GuiRadio)
          (Custom_checkbox_2.new_widget api_names))) /\
  string_popup_dynamic_widget.reachable api_names all_gui_by_checkbox /\
  Custom_checkbox_2.mutually_exclusive
    (Custom_checkbox_2.step (Custom_checkbox_2.ActivateMaster CustomRadio)
       (Custom_checkbox_2.step (Custom_checkbox_2.ActivateMaster GuiRadio)
          (Custom_checkbox_2.new_widget api_names))) /\
  string_popup_dynamic_widget.mutually_exclusive all_gui_by_checkbox.
Proof.
  assert (H1 : Custom_checkbox_2.reachable api_names
                 (Custom_checkbox_2.step
                    (Custom_checkbox_2.ActivateMaster CustomRadio)
                    (Custom_checkbox_2.step
                       (Custom_checkbox_2.ActivateMaster GuiRadio)
                       (Custom_checkbox_2.new_widget api_names))))
    by (repeat constructor).
  assert (H2 : string_popup_dynamic_widget.reachable api_names
                 all_gui_by_checkbox).
  { exact (string_popup_dynamic_widget.reach_step api_names _
             (string_popup_dynamic_widget.ActivateMaster GuiRadio)
             (string_popup_dynamic_widget.reach_new api_names)). }
  split; [exact H1|]. split; [exact H2|].
  exact (masters_mutually_exclusive api_names _ _ H1 H2).
Defined.

Lemma all_unset_not_all_checked (r : radio_id) (rs : rows) :
  rs <> [] ->
  Forall (fun row => snd row = None) rs ->
  ~ Forall (fun row => snd row = Some r) rs.
Proof.
  intros Hne Hu Hc. destruct rs as [|row rs]; [contradiction|].
  inversion Hu; inversion Hc; subst. congruence.
Qed.

(** C5. On a non-empty list, a click on the GUI master made while every
    row is unset (all choices Unset, the state of section 4.1's clearAll)
    puts every row on GUI and leaves no label unselected; with the GUI
    button of [select_all_custom_code_box] from any such state, with the GUI
    check box of [Custom_checkbox_2] from any such state reached by
    gestures, where the click also leaves the GUI box checked and the Custom
    box unchecked. *)
Theorem master_on_unset_rows_selects_all :
  forall (string_list : list string)
         (d : dialog) (w : Custom_checkbox_2.widget),
    string_list <> [] ->
    map fst (button_groups d) = string_list ->
    Forall (fun row => snd row = None) (button_groups d) ->
    Custom_checkbox_2.reachable string_list w ->
    Forall (fun row => snd row = None) (Custom_checkbox_2.button_groups w) ->
    let d' := select_all_custom_code_box.select_all_gui d in
    let w' := Custom_checkbox_2.step
                (Custom_checkbox_2.ActivateMaster GuiRadio) w in
    (button_groups d' = map (fun s => (s, Some GuiRadio)) string_list /\
     unselected_items (button_groups d') = []) /\
    (Custom_checkbox_2.button_groups w'
       = map (fun s => (s, Some GuiRadio)) string_list /\
     unselected_items (Custom_checkbox_2.button_groups w') = [] /\
     Custom_checkbox_2.gui_checkbox w' = true /\
     Custom_checkbox_2.custom_checkbox w' = false).
Proof.
  intros string_list d w Hne Hd Hud Hw Huw d' w'.
  assert (Hgui : forall rs : rows,
             Forall (fun row => snd row <> None)
               (set_row_choice (Some GuiRadio) rs)).
  { intros rs. induction rs; simpl; constructor; [discriminate | assumption]. }
  assert (Hmap : forall rs : rows,
             map fst rs = string_list ->
             set_row_choice (Some GuiRadio) rs
             = map (fun s => (s, Some GuiRadio)) string_list).
  { intros rs <-. unfold set_row_choice. now rewrite map_map. }
  split.
  - assert (E : button_groups d'
                = set_row_choice (Some GuiRadio) (button_groups d))
      by apply select_all_gui_rows.
    rewrite E. split; [now apply Hmap|].
    apply unselected_items_none_unset, Hgui.
  - destruct (reachable_consistent _ _ Hw) as [(Hu & _ & Kg & _) Hl].
    assert (Hne' : Custom_checkbox_2.button_groups w <> []).
    { intros E. rewrite E in Hl. simpl in Hl. congruence. }
    assert (Hoff : Custom_checkbox_2.gui_checkbox w = false).
    { destruct (Custom_checkbox_2.gui_checkbox w); [|reflexivity].
      exfalso.
      exact (all_unset_not_all_checked GuiRadio _ Hne' Huw (Kg eq_refl)). }
    subst w'. unfold Custom_checkbox_2.step. simpl.
    rewrite (click_gui_checkbox_run w Hu), Hoff. simpl.
    split; [now apply Hmap|]. split; [|split; reflexivity].
    apply unselected_items_none_unset, Hgui.
Qed.

Lemma master_on_unset_rows_selects_all_witness :
  api_names <> [] /\
  map fst (button_groups (new_dialog api_names)) = api_names /\
  Forall (fun row => snd row = None) (button_groups (new_dialog api_names)) /\
  Custom_checkbox_2.reachable api_names (Custom_checkbox_2.new_widget api_names) /\
  Forall (fun row => snd row = None)
    (Custom_checkbox_2.button_groups (Custom_checkbox_2.new_widget api_names)) /\
  Custom_checkbox_2.button_groups gui_box_checked
  = map (fun s => (s, Some GuiRadio)) api_names.
Proof.
  assert (H1 : api_names <> []) by discriminate.
  assert (H2 : map fst (button_groups (new_dialog api_names)) = api_names)
    by reflexivity.
  assert (H3 : Forall (fun row : string * button_group => snd row = None)
                 (button_groups (new_dialog api_names)))
    by (repeat constructor).
  assert (H4 : Custom_checkbox_2.reachable api_names
                 (Custom_checkbox_2.new_widget api_names))
    by constructor.
  split; [exact H1|]. split; [exact H2|]. split; [exact H3|].
  split; [exact H4|]. split; [exact H3|].
  exact (proj1 (proj2 (master_on_unset_rows_selects_all
                         api_names (new_dialog api_names)
                         (Custom_checkbox_2.new_widget api_names)
                         H1 H2 H3 H4 H3))).
Defined.

(** [string_popup_dynamic_widget] connects no slot to its radio buttons:
    a radio click after a master click leaves the master box as it was. *)
Example popup_radio_click_keeps_master :
  let p := string_popup_dynamic_widget.click_radio 0 CustomRadio
             all_gui_by_checkbox in
  string_popup_dynamic_widget.gui_checkbox p = true /\
  nth_error (string_popup_dynamic_widget.button_groups p) 0
    = Some ("getUserData", Some CustomRadio).
Proof. split; reflexivity. Qed.


(* ================================================================== *)
(** * Further properties of the OK click and of the result list *)
(* ================================================================== *)

Lemma rows_unset_or_classified (rs : rows) :
  Exists (fun row => snd row = None) rs \/
  Forall (fun row => snd row <> None) rs.
Proof.
  induction rs as [|[s bg] rs [IH | IH]].
  - right. constructor.
  - left. now apply Exists_cons_tl.
  - destruct bg as [r|].
    + right. constructor; [discriminate | exact IH].
    + left. now apply Exists_cons_hd.
Qed.

(** X1. The validating OK click has two outcomes and the rows decide which:
    with some row unset it warns and returns the state as it is; with every
    row classified it emits [get_result] and closes.  It never emits a
    result that holds an unclassified row. *)
Theorem ok_click_outcomes :
  forall w : dialog,
    (Exists (fun row => snd row = None) (button_groups w) /\
     unselected_items (button_groups w) <> [] /\
     design_dynamic_custom_table.on_ok_clicked w =
       (w, Warning (unselected_items (button_groups w))
             warning_title generic_warning_text))
    \/
    (Forall (fun row => snd row <> None) (button_groups w) /\
     unselected_items (button_groups w) = [] /\
     design_dynamic_custom_table.on_ok_clicked w =
       (close w, ResultReady (get_result (button_groups w)))).
Proof.
  intros w. unfold design_dynamic_custom_table.on_ok_clicked.
  destruct (rows_unset_or_classified (button_groups w)) as [H | H].
  - left. pose proof (unselected_items_some_unset _ H) as T.
    rewrite T. split; [exact H|]. split; [|reflexivity].
    intros E. rewrite E in T. discriminate T.
  - right. rewrite (unselected_items_none_unset _ H).
    split; [exact H|]. split; reflexivity.
Qed.

(** X2. [unselected_items] is the list of the labels of the unset rows, in
    row order: a label is reported exactly when a row carrying it is unset,
    and a label that occurs on several unset rows is reported once per
    row. *)
Theorem unselected_items_are_the_unset_rows :
  forall (rs : rows),
    unselected_items rs = map fst (filter is_unset rs) /\
    (forall s, In s (unselected_items rs) <-> In (s, None) rs) /\
    length (unselected_items rs)
      = length (filter (fun row => is_unset row) rs).
Proof.
  intros rs. split; [apply unselected_items_filter|]. split.
  - intros s. split; [apply unselected_items_are_unset|].
    intros Hin. rewrite unselected_items_filter.
    apply in_map_iff. exists (s, None). split; [reflexivity|].
    apply filter_In. split; [exact Hin | reflexivity].
  - rewrite unselected_items_filter. apply length_map.
Qed.

Lemma render_row_classified_inj (r1 r2 : string * button_group) :
  snd r1 <> None -> snd r2 <> None ->
  render_row r1 = render_row r2 -> r1 = r2.
Proof.
  destruct r1 as [s1 [[|]|]], r2 as [s2 [[|]|]]; unfold render_row; simpl;
    intros H1 H2 E; try contradiction; try congruence;
    injection E as -> E'; discriminate E'.
Qed.

(** X3. On fully classified rows the emitted list loses nothing: two
    states with every row classified that emit the same result have the
    same rows. *)
Theorem get_result_injective_when_classified :
  forall (rs1 rs2 : rows),
    Forall (fun row => snd row <> None) rs1 ->
    Forall (fun row => snd row <> None) rs2 ->
    get_result rs1 = get_result rs2 ->
    rs1 = rs2.
Proof.
  intros rs1 rs2 H1. revert rs2.
  induction H1 as [|r1 rs1 Hr1 _ IH]; intros rs2 H2 E;
    rewrite !get_result_map in E.
  - destruct rs2; [reflexivity | discriminate E].
  - destruct H2 as [|r2 rs2 Hr2 H2]; [discriminate E|].
    simpl in E. injection E as E1 E2.
    f_equal.
    + apply render_row_classified_inj; auto.
      unfold render_row. now rewrite E1, E2.
    + apply IH; [exact H2|]. now rewrite !get_result_map.
Qed.

Lemma get_result_injective_when_classified_witness :
  Forall (fun row => snd row <> None)
    (button_groups all_gui_by_button) /\
  get_result (button_groups all_gui_by_button)
    = get_result (set_row_choice (Some GuiRadio) (create_rows api_names)) /\
  button_groups all_gui_by_button
    = set_row_choice (Some GuiRadio) (create_rows api_names).
Proof.
  assert (H : Forall (fun row : string * button_group => snd row <> None)
                (button_groups all_gui_by_button))
    by (repeat constructor; discriminate).
  split; [exact H|]. split; [reflexivity|].
  exact (get_result_injective_when_classified _ _ H H eq_refl).
Defined.

(** X4. The OK click of [dynamic_string_widget] on a dialog nobody touched
    reports every input string as "Custom", in input order, and closes. *)
Theorem untouched_dialog_reports_custom :
  forall (string_list : list string),
    dynamic_string_widget.on_ok_clicked (new_dialog string_list) =
      (close (new_dialog string_list),
       ResultReady (map (fun s => (s, "Custom")) string_list)).
Proof.
  intros string_list. unfold dynamic_string_widget.on_ok_clicked. simpl.
  rewrite get_result_map, create_rows_map, map_map. reflexivity.
Qed.

(** X5. The result list cannot tell an unset row from a Custom row: the
    rows with every unset group replaced by Custom give the same
    [get_result], so without validation the two states emit the same. *)
Theorem get_result_confuses_unset_with_custom :
  forall (w : dialog),
    let as_custom (row : string * button_group) :=
      (fst row, match snd row with
                | None => Some CustomRadio
                | Some r => Some r
                end) in
    get_result (map as_custom (button_groups w)) = get_result (button_groups w) /\
    snd (dynamic_string_widget.on_ok_clicked
           (set_button_groups (map as_custom (button_groups w)) w))
    = snd (dynamic_string_widget.on_ok_clicked w).
Proof.
  intros w as_custom.
  assert (E : get_result (map as_custom (button_groups w))
              = get_result (button_groups w)).
  { rewrite !get_result_map, map_map. apply map_ext.
    intros [s [[|]|]]; reflexivity. }
  split; [exact E|].
  unfold dynamic_string_widget.on_ok_clicked. simpl. now rewrite E.
Qed.

(** X6. [get_result] returns one pair per row, with the labels of the rows
    in row order, and no text other than "GUI" and "Custom". *)
Theorem get_result_shape :
  forall (rs : rows),
    map fst (get_result rs) = map fst rs /\
    Forall (fun pair => snd pair = "GUI" \/ snd pair = "Custom")
      (get_result rs).
Proof.
  intros rs. rewrite get_result_map. split.
  - rewrite map_map. reflexivity.
  - apply Forall_forall. intros pair Hin.
    apply in_map_iff in Hin. destruct Hin as [[s [[|]|]] [<- _]]; simpl; auto.
Qed.

(* ================================================================== *)
(** * Further properties of the header buttons of
      select_all_custom_code_box *)
(* ================================================================== *)

Lemma dialog_eq (a b : dialog) :
  button_groups a = button_groups b -> closed a = closed b -> a = b.
Proof. destruct a, b; simpl; intros -> ->; reflexivity. Qed.

Lemma select_all_gui_closed (w : dialog) :
  closed (select_all_custom_code_box.select_all_gui w) = closed w.
Proof.
  unfold select_all_custom_code_box.select_all_gui.
  destruct (select_all_custom_code_box.are_all_gui_selected w); reflexivity.
Qed.

Lemma select_all_custom_closed (w : dialog) :
  closed (select_all_custom_code_box.select_all_custom w) = closed w.
Proof.
  unfold select_all_custom_code_box.select_all_custom.
  destruct (select_all_custom_code_box.are_all_custom_selected w); reflexivity.
Qed.

(** X7. A header button of [select_all_custom_code_box] always leaves
    every row on the button's own option, also when every row was there
    already: the clearing its docstring announces does not happen.  A second
    click on the same button therefore changes nothing. *)
Theorem header_button_is_idempotent :
  forall (w : dialog),
    (button_groups (select_all_custom_code_box.select_all_gui w)
       = set_row_choice (Some GuiRadio) (button_groups w) /\
     select_all_custom_code_box.select_all_gui
       (select_all_custom_code_box.select_all_gui w)
     = select_all_custom_code_box.select_all_gui w) /\
    (button_groups (select_all_custom_code_box.select_all_custom w)
       = set_row_choice (Some CustomRadio) (button_groups w) /\
     select_all_custom_code_box.select_all_custom
       (select_all_custom_code_box.select_all_custom w)
     = select_all_custom_code_box.select_all_custom w).
Proof.
  intros w. split; (split; [|apply dialog_eq]).
  - apply select_all_gui_rows.
  - now rewrite !select_all_gui_rows, set_row_choice_twice.
  - now rewrite !select_all_gui_closed.
  - apply select_all_custom_rows.
  - now rewrite !select_all_custom_rows, set_row_choice_twice.
  - now rewrite !select_all_custom_closed.
Qed.

(** X8. "Custom" clicked right after "GUI" puts every row on Custom, and
    "GUI" clicked right after "Custom" puts every row on GUI, from every
    state: the second button never clears, because after the first click
    no dialog with a row has all rows on the second button's option. *)
Theorem header_buttons_switch_column :
  forall (w : dialog),
    button_groups
      (select_all_custom_code_box.select_all_custom
         (select_all_custom_code_box.select_all_gui w))
    = set_row_choice (Some CustomRadio) (button_groups w) /\
    button_groups
      (select_all_custom_code_box.select_all_gui
         (select_all_custom_code_box.select_all_custom w))
    = set_row_choice (Some GuiRadio) (button_groups w).
Proof.
  intros w. split.
  - now rewrite select_all_custom_rows, select_all_gui_rows,
      set_row_choice_twice.
  - now rewrite select_all_gui_rows, select_all_custom_rows,
      set_row_choice_twice.
Qed.

(** X9. The header buttons and [clear_all_selections] touch nothing but
    the radio groups: the labels, their order and number, and the open
    state of the dialog are as before. *)
Theorem header_buttons_keep_labels :
  forall (w : dialog),
    let same (w' : dialog) :=
      map fst (button_groups w') = map fst (button_groups w) /\
      closed w' = closed w in
    same (select_all_custom_code_box.select_all_gui w) /\
    same (select_all_custom_code_box.select_all_custom w) /\
    same (select_all_custom_code_box.clear_all_selections w).
Proof.
  intros w same. subst same. simpl.
  assert (L : forall c, map fst (set_row_choice c (button_groups w))
                        = map fst (button_groups w)).
  { intros c. unfold set_row_choice. now rewrite map_map. }
  rewrite select_all_gui_rows, select_all_custom_rows, clear_every_row, !L.
  rewrite select_all_gui_closed, select_all_custom_closed.
  repeat split.
Qed.

(** X10. The two tests [are_all_gui_selected] and [are_all_custom_selected]
    agree on "yes" only for the dialog without rows, where both say yes. *)
Theorem both_columns_full_only_without_rows :
  forall (w : dialog),
    (select_all_custom_code_box.are_all_gui_selected w = true /\
     select_all_custom_code_box.are_all_custom_selected w = true)
    <-> button_groups w = [].
Proof.
  intros w.
  unfold select_all_custom_code_box.are_all_gui_selected,
    select_all_custom_code_box.are_all_custom_selected.
  destruct (button_groups w) as [|[s bg] rest]; simpl.
  - split; auto.
  - split; [|discriminate].
    intros [H1 H2]. destruct bg as [[|]|]; simpl in *; discriminate.
Qed.

(** X11. In [select_all_custom_code_box] an OK click right after a click
    on "GUI" never warns: it emits every label with "GUI", in row order,
    and closes the dialog, also when every row was GUI before the click. *)
Theorem gui_button_then_ok :
  forall (w : dialog),
    let w1 := select_all_custom_code_box.select_all_gui w in
    select_all_custom_code_box.on_ok_clicked w1 =
      (close w1,
       ResultReady (map (fun row => (fst row, "GUI")) (button_groups w))).
Proof.
  intros w w1.
  unfold select_all_custom_code_box.on_ok_clicked.
  assert (Hrows := select_all_gui_rows w). fold w1 in Hrows.
  rewrite Hrows, unselected_items_none_unset.
  - simpl. rewrite get_result_map. unfold set_row_choice.
    now rewrite map_map.
  - apply Forall_forall. intros row Hin.
    apply in_map_iff in Hin. destruct Hin as [row' [<- _]]. discriminate.
Qed.

(* ================================================================== *)
(** * Further properties of the master check boxes of
      string_popup_dynamic_widget *)
(* ================================================================== *)

Lemma popup_click_gui (p : string_popup_dynamic_widget.widget) :
  string_popup_dynamic_widget.click_gui_checkbox p =
    {| string_popup_dynamic_widget.button_groups :=
         set_row_choice
           (Some (if string_popup_dynamic_widget.gui_checkbox p
                  then CustomRadio else GuiRadio))
           (string_popup_dynamic_widget.button_groups p);
       string_popup_dynamic_widget.gui_checkbox :=
         negb (string_popup_dynamic_widget.gui_checkbox p);
       string_popup_dynamic_widget.custom_checkbox :=
         string_popup_dynamic_widget.gui_checkbox p;
       string_popup_dynamic_widget.closed :=
         string_popup_dynamic_widget.closed p |}.
Proof.
  unfold string_popup_dynamic_widget.click_gui_checkbox,
    string_popup_dynamic_widget.on_gui_checkbox_clicked,
    string_popup_dynamic_widget.check_all.
  simpl. destruct (string_popup_dynamic_widget.gui_checkbox p); simpl;
    rewrite check_every_row; reflexivity.
Qed.

Lemma popup_click_custom (p : string_popup_dynamic_widget.widget) :
  string_popup_dynamic_widget.click_custom_checkbox p =
    {| string_popup_dynamic_widget.button_groups :=
         set_row_choice
           (Some (if string_popup_dynamic_widget.custom_checkbox p
                  then GuiRadio else CustomRadio))
           (string_popup_dynamic_widget.button_groups p);
       string_popup_dynamic_widget.gui_checkbox :=
         string_popup_dynamic_widget.custom_checkbox p;
       string_popup_dynamic_widget.custom_checkbox :=
         negb (string_popup_dynamic_widget.custom_checkbox p);
       string_popup_dynamic_widget.closed :=
         string_popup_dynamic_widget.closed p |}.
Proof.
  unfold string_popup_dynamic_widget.click_custom_checkbox,
    string_popup_dynamic_widget.on_custom_checkbox_clicked,
    string_popup_dynamic_widget.check_all.
  simpl. destruct (string_popup_dynamic_widget.custom_checkbox p); simpl;
    rewrite check_every_row; reflexivity.
Qed.

Lemma popup_master_rows (p : string_popup_dynamic_widget.widget)
      (r : radio_id) :
  string_popup_dynamic_widget.button_groups
    (string_popup_dynamic_widget.step
       (string_popup_dynamic_widget.ActivateMaster r) p)
  = set_row_choice
      (Some (if string_popup_dynamic_widget.gui_checkbox
                  (string_popup_dynamic_widget.step
                     (string_popup_dynamic_widget.ActivateMaster r) p)
             then GuiRadio else CustomRadio))
      (string_popup_dynamic_widget.button_groups p).
Proof.
  destruct r; simpl.
  - rewrite popup_click_gui. simpl.
    destruct (string_popup_dynamic_widget.gui_checkbox p); reflexivity.
  - rewrite popup_click_custom. simpl.
    destruct (string_popup_dynamic_widget.custom_checkbox p); reflexivity.
Qed.

(** X12. Right after a click on either master check box of
    [string_popup_dynamic_widget], exactly one of the two boxes is checked
    and every row holds the option of the checked box; the labels are
    untouched.  This holds from every state, stale boxes included. *)
Theorem popup_master_click_settles :
  forall (p : string_popup_dynamic_widget.widget) (r : radio_id),
    let p' := string_popup_dynamic_widget.step
                (string_popup_dynamic_widget.ActivateMaster r) p in
    string_popup_dynamic_widget.custom_checkbox p'
      = negb (string_popup_dynamic_widget.gui_checkbox p') /\
    string_popup_dynamic_widget.button_groups p'
      = set_row_choice
          (Some (if string_popup_dynamic_widget.gui_checkbox p'
                 then GuiRadio else CustomRadio))
          (string_popup_dynamic_widget.button_groups p) /\
    map fst (string_popup_dynamic_widget.button_groups p')
      = map fst (string_popup_dynamic_widget.button_groups p).
Proof.
  intros p r p'. subst p'. destruct r; simpl.
  - rewrite popup_click_gui. simpl.
    destruct (string_popup_dynamic_widget.gui_checkbox p); simpl;
      repeat split; unfold set_row_choice; now rewrite map_map.
  - rewrite popup_click_custom. simpl.
    destruct (string_popup_dynamic_widget.custom_checkbox p); simpl;
      repeat split; unfold set_row_choice; now rewrite map_map.
Qed.

(** X13. In [string_popup_dynamic_widget] an OK click made right after a
    click on a master check box never warns: it emits one pair per label,
    all "GUI" when the click checked the GUI box or unchecked the Custom
    box, all "Custom" otherwise, and closes the dialog. *)
Theorem popup_master_click_then_ok :
  forall (p : string_popup_dynamic_widget.widget) (r : radio_id),
    let p' := string_popup_dynamic_widget.step
                (string_popup_dynamic_widget.ActivateMaster r) p in
    string_popup_dynamic_widget.on_ok_clicked p' =
      (string_popup_dynamic_widget.close p',
       ResultReady
         (map (fun row =>
                 (fst row,
                  if string_popup_dynamic_widget.gui_checkbox p'
                  then "GUI" else "Custom"))
            (string_popup_dynamic_widget.button_groups p))).
Proof.
  intros p r p'.
  pose proof (popup_master_rows p r) as Hrows. fold p' in Hrows.
  unfold string_popup_dynamic_widget.on_ok_clicked. rewrite Hrows.
  rewrite unselected_items_none_unset.
  - simpl. rewrite get_result_map. unfold set_row_choice. rewrite map_map.
    destruct (string_popup_dynamic_widget.gui_checkbox p'); reflexivity.
  - apply Forall_forall. intros row Hin.
    apply in_map_iff in Hin. destruct Hin as [row' [<- _]]. discriminate.
Qed.

(** X14. With the boxes mutually exclusive, unchecking one master box of
    [string_popup_dynamic_widget] is the same as checking the other: both
    clicks lead to the same state. *)
Theorem popup_uncheck_is_check_of_other :
  forall (p : string_popup_dynamic_widget.widget),
    (string_popup_dynamic_widget.gui_checkbox p = true ->
     string_popup_dynamic_widget.custom_checkbox p = false ->
     string_popup_dynamic_widget.click_gui_checkbox p
     = string_popup_dynamic_widget.click_custom_checkbox p) /\
    (string_popup_dynamic_widget.custom_checkbox p = true ->
     string_popup_dynamic_widget.gui_checkbox p = false ->
     string_popup_dynamic_widget.click_custom_checkbox p
     = string_popup_dynamic_widget.click_gui_checkbox p).
Proof.
  intros p. rewrite popup_click_gui, popup_click_custom.
  split; intros -> ->; reflexivity.
Qed.

Lemma popup_uncheck_is_check_of_other_witness :
  string_popup_dynamic_widget.gui_checkbox all_gui_by_checkbox = true /\
  string_popup_dynamic_widget.custom_checkbox all_gui_by_checkbox = false /\
  string_popup_dynamic_widget.click_gui_checkbox all_gui_by_checkbox
  = string_popup_dynamic_widget.click_custom_checkbox all_gui_by_checkbox.
Proof.
  split; [reflexivity|]. split; [reflexivity|].
  exact (proj1 (popup_uncheck_is_check_of_other all_gui_by_checkbox)
           eq_refl eq_refl).
Defined.


(* ================================================================== *)
(** * Further properties of Custom_checkbox_2 *)
(* ================================================================== *)

Section More_between_gestures.
Import Custom_checkbox_2.

Lemma slot_closed (w : widget) :
  closed (fst (on_radio_button_changed w)) = closed w.
Proof.
  unfold on_radio_button_changed, update_checkbox_states_from_radios.
  destruct (updating_checkboxes w); reflexivity.
Qed.

Lemma emit_closed (n : nat) (w : widget) :
  closed (fst (emit_toggled n w)) = closed w.
Proof.
  revert w; induction n as [|n IH]; intros w; simpl; [reflexivity|].
  unfold and_then. pose proof (slot_closed w) as Hs.
  destruct (on_radio_button_changed w) as [w1 l1]. simpl in Hs.
  specialize (IH w1). destruct (emit_toggled n w1) as [w2 l2]. simpl in *.
  congruence.
Qed.

Lemma on_row_closed (i : nat) call (w : widget) :
  closed (fst (on_row i call w)) = closed w.
Proof.
  unfold on_row.
  destruct (nth_error (button_groups w) i) as [[s bg]|]; [|reflexivity].
  destruct (call bg) as [bg' signals]. now rewrite emit_closed.
Qed.

Lemma step_closed (g : gesture) (w : widget) :
  updating_checkboxes w = false -> closed (step g w) = closed w.
Proof.
  intros Hu. unfold step. destruct g as [i r | [|] | ]; simpl.
  - apply on_row_closed.
  - rewrite (click_gui_checkbox_run w Hu).
    destruct (negb (gui_checkbox w)); reflexivity.
  - rewrite (click_custom_checkbox_run w Hu).
    destruct (negb (custom_checkbox w)); reflexivity.
  - unfold clear_all_selections, for_each_index.
    apply (for_each_keeps (fun w' => closed w' = closed w)); [|reflexivity].
    intros i w0 H0. now rewrite on_row_closed.
Qed.

(** The slot outside a master click: every delivery recomputes. *)
Lemma emit_unguarded_log (n : nat) (w : widget) :
  updating_checkboxes w = false ->
  snd (emit_toggled n w) = repeat Recomputed n /\
  updating_checkboxes (fst (emit_toggled n w)) = false.
Proof.
  revert w; induction n as [|n IH]; intros w Hu; simpl.
  - split; [reflexivity | exact Hu].
  - unfold and_then.
    destruct (slot_recomputes w Hu) as (_ & Hu1 & _).
    assert (Hl : snd (on_radio_button_changed w) = [Recomputed]).
    { unfold on_radio_button_changed, update_checkbox_states_from_radios.
      now rewrite Hu. }
    destruct (on_radio_button_changed w) as [w1 l1]. simpl in Hu1, Hl.
    destruct (IH w1 Hu1) as [IHl IHu].
    destruct (emit_toggled n w1) as [w2 l2]. simpl in *.
    subst l1 l2. split; [reflexivity | exact IHu].
Qed.

Lemma on_row_unguarded_log (i : nat) call (w : widget) :
  updating_checkboxes w = false ->
  Forall (fun e => e = Recomputed) (snd (on_row i call w)) /\
  updating_checkboxes (fst (on_row i call w)) = false.
Proof.
  intros Hu. unfold on_row.
  destruct (nth_error (button_groups w) i) as [[s bg]|];
    [|split; [constructor | exact Hu]].
  destruct (call bg) as [bg' signals].
  destruct (emit_unguarded_log signals
              (set_rows (update_row i (fun _ => bg') (button_groups w)) w) Hu)
    as [Hl Hu'].
  rewrite Hl. split; [|exact Hu'].
  apply Forall_forall. intros e He. now apply repeat_spec in He.
Qed.

End More_between_gestures.

(** X16. In every state of [Custom_checkbox_2] reached from a new dialog by
    radio clicks, master clicks and clearing, the guard
    [updating_checkboxes] is down, the labels are those of the input list in
    its order, and the dialog is open: no gesture other than a successful
    OK closes it, and no handler leaves the guard up. *)
Theorem gestures_keep_guard_labels_and_window :
  forall (string_list : list string) (w : Custom_checkbox_2.widget),
    Custom_checkbox_2.reachable string_list w ->
    Custom_checkbox_2.updating_checkboxes w = false /\
    map fst (Custom_checkbox_2.button_groups w) = string_list /\
    Custom_checkbox_2.closed w = false.
Proof.
  intros string_list w Hw.
  destruct (reachable_consistent _ _ Hw) as [(Hu & _ & _) Hl].
  split; [exact Hu|]. split; [exact Hl|].
  induction Hw as [|w g Hw IH]; [reflexivity|].
  destruct (reachable_consistent _ _ Hw) as [(Hu' & _ & _) _].
  rewrite (step_closed g w Hu'). apply IH.
  - exact Hu'.
  - now destruct (reachable_consistent _ _ Hw).
Qed.

Lemma gestures_keep_guard_labels_and_window_witness :
  Custom_checkbox_2.reachable api_names
    (Custom_checkbox_2.step Custom_checkbox_2.ClearAll
       (Custom_checkbox_2.step (Custom_checkbox_2.ToggleItem 0 GuiRadio)
          (Custom_checkbox_2.new_widget api_names))) /\
  map fst
    (Custom_checkbox_2.button_groups
       (Custom_checkbox_2.step Custom_checkbox_2.ClearAll
          (Custom_checkbox_2.step (Custom_checkbox_2.ToggleItem 0 GuiRadio)
             (Custom_checkbox_2.new_widget api_names))))
  = api_names.
Proof.
  assert (H : Custom_checkbox_2.reachable api_names
                (Custom_checkbox_2.step Custom_checkbox_2.ClearAll
                   (Custom_checkbox_2.step
                      (Custom_checkbox_2.ToggleItem 0 GuiRadio)
                      (Custom_checkbox_2.new_widget api_names))))
    by (repeat constructor).
  split; [exact H|].
  exact (proj1 (proj2 (gestures_keep_guard_labels_and_window api_names _ H))).
Defined.

(** X17. [update_checkbox_states_from_radios] writes the two master boxes
    and nothing else: rows, guard and window are as before, each box ends
    checked exactly when every row holds its option (with the guard down),
    and running it a second time changes nothing.  Entered with the guard
    up it changes nothing at all. *)
Theorem update_checkbox_states_writes_boxes_only :
  forall (w : Custom_checkbox_2.widget),
    let w1 := fst (Custom_checkbox_2.update_checkbox_states_from_radios w) in
    Custom_checkbox_2.button_groups w1 = Custom_checkbox_2.button_groups w /\
    Custom_checkbox_2.updating_checkboxes w1
      = Custom_checkbox_2.updating_checkboxes w /\
    Custom_checkbox_2.closed w1 = Custom_checkbox_2.closed w /\
    fst (Custom_checkbox_2.update_checkbox_states_from_radios w1) = w1 /\
    (if Custom_checkbox_2.updating_checkboxes w
     then w1 = w
     else Custom_checkbox_2.derivation_rule w1).
Proof.
  intros w w1. subst w1.
  unfold Custom_checkbox_2.update_checkbox_states_from_radios.
  destruct (Custom_checkbox_2.updating_checkboxes w) eqn:Hu; simpl.
  - rewrite Hu. repeat split.
  - repeat split; try exact Hu.
    + apply (count_checked_all GuiRadio).
    + apply (count_checked_all GuiRadio).
    + apply (count_checked_all CustomRadio).
    + apply (count_checked_all CustomRadio).
Qed.

Lemma all_rows_is_set (c : button_group) (rs : rows) :
  Forall (fun row => snd row = c) rs -> set_row_choice c rs = rs.
Proof.
  induction 1 as [|[s bg] rs Hrow _ IH]; simpl; [reflexivity|].
  simpl in Hrow. now rewrite IH, Hrow.
Qed.

(** X18. In [Custom_checkbox_2], in any state reached by gestures, an OK
    click right after a click on a master check box never warns: it emits
    every input label with that box's option and closes the dialog.  After
    a checking click the click has put every row there; after an unchecking
    click the rows were there already and the refused clearing leaves
    them. *)
Theorem master_click_then_ok :
  forall (string_list : list string)
         (w : Custom_checkbox_2.widget) (r : radio_id),
    Custom_checkbox_2.reachable string_list w ->
    let w1 := Custom_checkbox_2.step (Custom_checkbox_2.ActivateMaster r) w in
    Custom_checkbox_2.on_ok_clicked w1 =
      (Custom_checkbox_2.close w1,
       ResultReady (map (fun s => (s, option_text r)) string_list)).
Proof.
  intros string_list w r Hw w1.
  destruct (reachable_consistent _ _ Hw) as [(Hu & _ & Kg & Kc) Hl].
  assert (Hrows : Custom_checkbox_2.button_groups w1
                  = set_row_choice (Some r)
                      (Custom_checkbox_2.button_groups w)).
  { subst w1. unfold Custom_checkbox_2.step. destruct r; simpl.
    - rewrite (click_gui_checkbox_run w Hu).
      destruct (Custom_checkbox_2.gui_checkbox w); simpl; [|reflexivity].
      symmetry. now apply all_rows_is_set, Kg.
    - rewrite (click_custom_checkbox_run w Hu).
      destruct (Custom_checkbox_2.custom_checkbox w); simpl; [|reflexivity].
      symmetry. now apply all_rows_is_set, Kc. }
  unfold Custom_checkbox_2.on_ok_clicked. rewrite Hrows.
  rewrite unselected_items_none_unset.
  - simpl. rewrite get_result_map, <- Hl. unfold set_row_choice.
    rewrite !map_map. destruct r; reflexivity.
  - apply Forall_forall. intros row Hin.
    apply in_map_iff in Hin. destruct Hin as [row' [<- _]]. discriminate.
Qed.

Lemma master_click_then_ok_witness :
  Custom_checkbox_2.reachable api_names gui_box_checked /\
  snd (Custom_checkbox_2.on_ok_clicked gui_box_checked_then_unchecked)
  = ResultReady
      [("getUserData", "GUI"); ("fetchUserInfo", "GUI"); ("getProfile", "GUI")].
Proof.
  assert (H : Custom_checkbox_2.reachable api_names gui_box_checked)
    by (repeat constructor).
  split; [exact H|].
  exact (f_equal snd (master_click_then_ok api_names gui_box_checked GuiRadio H)).
Defined.

Lemma on_row_clear_button (i : nat) (w : Custom_checkbox_2.widget) :
  Custom_checkbox_2.on_row i clear_button w = (w, []).
Proof.
  unfold Custom_checkbox_2.on_row.
  destruct (nth_error (Custom_checkbox_2.button_groups w) i) as [[s bg]|] eqn:E;
    [|reflexivity].
  rewrite clear_button_refused. simpl. unfold Custom_checkbox_2.skip.
  now rewrite (update_row_same _ _ _ _ E), set_rows_same.
Qed.

(** X19. [clear_all_selections] changes nothing, in both files that have
    it: in every state it returns the rows, the master boxes, the guard and
    the window as they were, and in [Custom_checkbox_2] it raises no
    [toggled] signal, so the slot of the radio buttons is not called. *)
Theorem clear_all_selections_changes_nothing :
  forall (d : dialog) (w : Custom_checkbox_2.widget),
    select_all_custom_code_box.clear_all_selections d = d /\
    Custom_checkbox_2.clear_all_selections w = (w, []).
Proof.
  intros d w. split.
  - unfold select_all_custom_code_box.clear_all_selections.
    rewrite clear_every_row. now destruct d.
  - unfold Custom_checkbox_2.clear_all_selections,
      Custom_checkbox_2.for_each_index.
    generalize (seq 0 (length (Custom_checkbox_2.button_groups w))).
    intros idxs. induction idxs as [|i idxs IH]; simpl; [reflexivity|].
    unfold Custom_checkbox_2.and_then.
    now rewrite on_row_clear_button, IH.
Qed.

(** X20. With the guard down, the slot of the radio buttons is never
    turned away by a radio click: the click recomputes the master boxes
    once per radio button that changed state (not at all when the clicked
    radio was checked already or the row does not exist), and the guard is
    down again afterwards. *)
Theorem slot_runs_outside_master_click :
  forall (w : Custom_checkbox_2.widget) (i : nat) (r : radio_id),
    Custom_checkbox_2.updating_checkboxes w = false ->
    snd (Custom_checkbox_2.perform (Custom_checkbox_2.ToggleItem i r) w)
      = repeat Custom_checkbox_2.Recomputed
          (match nth_error (Custom_checkbox_2.button_groups w) i with
           | Some (_, bg) => snd (setChecked_true r bg)
           | None => 0
           end) /\
    Custom_checkbox_2.updating_checkboxes
      (Custom_checkbox_2.step (Custom_checkbox_2.ToggleItem i r) w) = false.
Proof.
  intros w i r Hu. split.
  - simpl. unfold Custom_checkbox_2.radio_setChecked, Custom_checkbox_2.on_row.
    destruct (nth_error (Custom_checkbox_2.button_groups w) i) as [[s bg]|];
      [|reflexivity].
    destruct (setChecked_true r bg) as [bg' signals]. simpl.
    now apply emit_unguarded_log.
  - unfold Custom_checkbox_2.step. simpl.
    now apply on_row_unguarded_log.
Qed.

Lemma slot_runs_outside_master_click_witness :
  Custom_checkbox_2.updating_checkboxes partly_classified_boxes = false /\
  snd (Custom_checkbox_2.perform (Custom_checkbox_2.ToggleItem 0 CustomRadio)
         partly_classified_boxes)
  = [Custom_checkbox_2.Recomputed; Custom_checkbox_2.Recomputed].
Proof.
  split; [reflexivity|].
  exact (proj1 (slot_runs_outside_master_click
                  partly_classified_boxes 0 CustomRadio eq_refl)).
Defined.

(* ================================================================== *)
(** * get_selections of the two ScrollableRadioWidget classes *)
(* ================================================================== *)

Lemma decimal_inj (a b : nat) : decimal a = decimal b -> a = b.
Proof.
  unfold decimal. intros E.
  apply (f_equal NilEmpty.uint_of_string) in E.
  rewrite !NilEmpty.usu in E. injection E as E.
  apply (f_equal Nat.of_uint) in E.
  now rewrite !Unsigned.of_to in E.
Qed.

Lemma section_key_inj (a b : nat) : section_key a = section_key b -> a = b.
Proof.
  unfold section_key. simpl. intros E. apply decimal_inj. congruence.
Qed.

Section Dictionaries.
Context {X V : Type}.
Variable key : X -> string.
Variable val : X -> V.

Lemma dict_set_fresh (k : string) (v : V) (d : dict V) :
  dict_get k d = None -> dict_set k v d = d ++ [(k, v)].
Proof.
  induction d as [|[k' v'] d IH]; simpl; [reflexivity|].
  destruct (String.eqb k k'); [discriminate|].
  intros H. now rewrite IH.
Qed.

Lemma dict_get_snoc_other (k k' : string) (v : V) (d : dict V) :
  k <> k' -> dict_get k (d ++ [(k', v)]) = dict_get k d.
Proof.
  intros Hne. induction d as [|[k0 v0] d IH]; simpl.
  - apply String.eqb_neq in Hne. now rewrite Hne.
  - destruct (String.eqb k k0); [reflexivity | exact IH].
Qed.

(** Assignments under pairwise distinct new keys append, in order. *)
Lemma dict_fold_fresh (xs : list X) (acc : dict V) :
  NoDup (map key xs) ->
  (forall x, In x xs -> dict_get (key x) acc = None) ->
  fold_left (fun d x => dict_set (key x) (val x) d) xs acc
  = acc ++ map (fun x => (key x, val x)) xs.
Proof.
  revert acc; induction xs as [|x xs IH]; intros acc Hnd Hfresh; simpl.
  - now rewrite app_nil_r.
  - inversion Hnd as [|? ? Hnotin Hnd']; subst.
    rewrite dict_set_fresh by (apply Hfresh; now left).
    rewrite IH; [now rewrite <- app_assoc | exact Hnd' |].
    intros y Hy. rewrite dict_get_snoc_other.
    + apply Hfresh. now right.
    + intros E. apply Hnotin. rewrite <- E. now apply in_map.
Qed.

Lemma dict_get_listed (xs : list X) (x : X) :
  NoDup (map key xs) -> In x xs ->
  dict_get (key x) (map (fun x => (key x, val x)) xs) = Some (val x).
Proof.
  induction xs as [|y xs IH]; intros Hnd Hin; [destruct Hin|].
  inversion Hnd as [|? ? Hnotin Hnd']; subst. simpl.
  destruct Hin as [-> | Hin].
  - now rewrite String.eqb_refl.
  - destruct (String.eqb (key x) (key y)) eqn:E.
    + apply String.eqb_eq in E. exfalso. apply Hnotin.
      rewrite <- E. now apply in_map.
    + now apply IH.
Qed.

Lemma dict_get_unlisted (xs : list X) (k : string) :
  ~ In k (map key xs) ->
  dict_get k (map (fun x => (key x, val x)) xs) = None.
Proof.
  induction xs as [|y xs IH]; intros Hnotin; simpl; [reflexivity|].
  destruct (String.eqb k (key y)) eqn:E.
  - apply String.eqb_eq in E. exfalso. apply Hnotin. now left.
  - apply IH. intros Hin. apply Hnotin. now right.
Qed.

End Dictionaries.

Lemma enumerate_indices {A : Type} (xs : list A) (start : nat) :
  map fst (enumerate xs start) = seq start (length xs).
Proof.
  unfold enumerate. revert start; induction xs as [|x xs IH]; intros start;
    simpl; [reflexivity|]. now rewrite IH.
Qed.

Lemma enumerate_nth {A : Type} (xs : list A) (start i : nat) (x : A) :
  nth_error xs i = Some x -> In (start + i, x) (enumerate xs start).
Proof.
  unfold enumerate. revert start i; induction xs as [|y xs IH];
    intros start [|i] H; simpl in *; try discriminate.
  - injection H as ->. left. f_equal. lia.
  - right. replace (start + S i) with (S start + i) by lia. now apply IH.
Qed.

Lemma enumerate_In {A : Type} (xs : list A) (start j : nat) (x : A) :
  In (j, x) (enumerate xs start) ->
  start <= j /\ nth_error xs (j - start) = Some x.
Proof.
  unfold enumerate. revert start; induction xs as [|y xs IH];
    intros start Hin; simpl in *; [destruct Hin|].
  destruct Hin as [E | Hin].
  - injection E as <- <-. split; [lia|]. now rewrite Nat.sub_diag.
  - destruct (IH _ Hin) as [Hle Hnth]. split; [lia|].
    replace (j - start) with (S (j - S start)) by lia. exact Hnth.
Qed.

Lemma enumerate_snoc {A : Type} (xs : list A) (start : nat) (x : A) :
  enumerate (xs ++ [x]) start = enumerate xs start ++ [(start + length xs, x)].
Proof.
  unfold enumerate. revert start; induction xs as [|y xs IH]; intros start;
    simpl.
  - now rewrite Nat.add_0_r.
  - rewrite IH. simpl.
    now replace (start + S (length xs)) with (S (start + length xs)) by lia.
Qed.

Lemma section_keys_distinct {A : Type} (shift : nat) (xs : list (nat * A)) :
  NoDup (map fst xs) ->
  NoDup (map (fun p => section_key (fst p + shift)) xs).
Proof.
  induction xs as [|[i a] xs IH]; intros Hnd; simpl; [constructor|].
  inversion Hnd as [|? ? Hnotin Hnd']; subst.
  constructor; [|now apply IH].
  intros Hin. apply in_map_iff in Hin. destruct Hin as [[j b] [E Hin]].
  apply section_key_inj in E. simpl in *.
  apply Hnotin. apply in_map_iff. exists (j, b). split; [simpl; lia | exact Hin].
Qed.

Lemma enumerate_keys_distinct {A : Type} (shift start : nat) (xs : list A) :
  NoDup (map (fun p => section_key (fst p + shift)) (enumerate xs start)).
Proof.
  apply section_keys_distinct. rewrite enumerate_indices. apply seq_NoDup.
Qed.

(** The value stored for a group by [dynamic_widget02.get_selections]. *)
Lemma selections02_closed_form (w : dynamic_widget02.widget) :
  dynamic_widget02.get_selections w
  = map (fun p => (section_key (fst p + 0),
                   match snd p with
                   | Some _ => Some (section_checkedId (snd p))
                   | None => None
                   end))
      (enumerate (dynamic_widget02.button_groups w) 1).
Proof.
  unfold dynamic_widget02.get_selections.
  rewrite (fold_left_ext _
             (fun d p => dict_set (section_key (fst p + 0))
                           (match snd p with
                            | Some _ => Some (section_checkedId (snd p))
                            | None => None
                            end) d)).
  - rewrite dict_fold_fresh; [reflexivity | apply enumerate_keys_distinct |].
    reflexivity.
  - intros d [i [r|]]; simpl; now rewrite Nat.add_0_r.
Qed.

Lemma fold_left_when {A B : Type} (c : A -> bool) (f : B -> A -> B)
      (xs : list A) (acc : B) :
  fold_left (fun b x => if c x then f b x else b) xs acc
  = fold_left f (filter c xs) acc.
Proof.
  revert acc; induction xs as [|x xs IH]; intros acc; simpl; [reflexivity|].
  destruct (c x); simpl; apply IH.
Qed.

Lemma NoDup_map_filter {A B : Type} (f : A -> B) (c : A -> bool) (xs : list A) :
  NoDup (map f xs) -> NoDup (map f (filter c xs)).
Proof.
  induction xs as [|x xs IH]; intros Hnd; simpl; [constructor|].
  inversion Hnd as [|? ? Hnotin Hnd']; subst.
  destruct (c x); simpl; [|now apply IH].
  constructor; [|now apply IH].
  intros Hin. apply Hnotin. apply in_map_iff in Hin.
  destruct Hin as [y [E Hy]]. apply filter_In in Hy.
  apply in_map_iff. exists y. tauto.
Qed.

Lemma selections_closed_form (w : dynamic_widget.widget) :
  dynamic_widget.get_selections w
  = map (fun p => (section_key (fst p + 1), section_checkedId (snd p)))
      (filter is_checked (enumerate (dynamic_widget02.button_groups w) 0)).
Proof.
  unfold dynamic_widget.get_selections.
  rewrite (fold_left_ext _
             (fun d p => if is_checked p
                         then dict_set (section_key (fst p + 1))
                                (section_checkedId (snd p)) d
                         else d)).
  - rewrite (fold_left_when is_checked
               (fun d p => dict_set (section_key (fst p + 1))
                             (section_checkedId (snd p)) d)).
    rewrite dict_fold_fresh; [reflexivity | | reflexivity].
    apply NoDup_map_filter, enumerate_keys_distinct.
  - intros d [i [r|]]; reflexivity.
Qed.

(** X21. [get_selections] of [dynamic_widget02] has one entry per section,
    under the keys "section_1", "section_2", ... in that order; looking up
    the key of a section gives the id (1 or 2) of its checked radio button,
    or Python's [None] when neither is checked. *)
Theorem get_selections02_reports_every_section :
  forall (w : dynamic_widget02.widget),
    map fst (dynamic_widget02.get_selections w)
      = map section_key (seq 1 (length (dynamic_widget02.button_groups w))) /\
    forall (i : nat) (g : section_group),
      nth_error (dynamic_widget02.button_groups w) i = Some g ->
      dict_get (section_key (i + 1)) (dynamic_widget02.get_selections w)
      = Some (match g with
              | Some Radio1 => Some 1%Z
              | Some Radio2 => Some 2%Z
              | None => None
              end).
Proof.
  intros w. rewrite selections02_closed_form. split.
  - rewrite map_map. simpl.
    rewrite <- (enumerate_indices (dynamic_widget02.button_groups w) 1).
    rewrite map_map. apply map_ext. intros [i g]. simpl.
    now rewrite Nat.add_0_r.
  - intros i g Hnth.
    pose proof (enumerate_nth _ 1 i g Hnth) as Hin.
    pose proof (dict_get_listed
                  (fun p : nat * section_group => section_key (fst p + 0))
                  (fun p => match snd p with
                            | Some _ => Some (section_checkedId (snd p))
                            | None => None
                            end)
                  _ _ (enumerate_keys_distinct 0 1 _) Hin) as H.
    replace (i + 1) with (1 + i + 0) by lia.
    refine (eq_trans H _). destruct g as [[|]|]; reflexivity.
Qed.

Lemma get_selections02_reports_every_section_witness :
  nth_error
    (dynamic_widget02.button_groups
       {| dynamic_widget02.section_counter := 3;
          dynamic_widget02.button_groups := [Some Radio2; None; Some Radio1] |})
    1 = Some None /\
  dict_get "section_2"
    (dynamic_widget02.get_selections
       {| dynamic_widget02.section_counter := 3;
          dynamic_widget02.button_groups := [Some Radio2; None; Some Radio1] |})
  = Some None.
Proof.
  split; [reflexivity|].
  exact (proj2 (get_selections02_reports_every_section
                  {| dynamic_widget02.section_counter := 3;
                     dynamic_widget02.button_groups :=
                       [Some Radio2; None; Some Radio1] |})
           1 None eq_refl).
Defined.

(** X22. [get_selections] of [dynamic_widget] has an entry exactly for the
    sections with a checked radio button: looking up "section_<i+1>" gives
    the id (1 or 2) of the checked button of group [i], and finds no key
    when neither button of that group is checked. *)
Theorem get_selections_reports_checked_sections :
  forall (w : dynamic_widget.widget),
    length (dynamic_widget.get_selections w)
      = length (filter (fun g : section_group =>
                          match g with Some _ => true | None => false end)
                  (dynamic_widget02.button_groups w)) /\
    forall (i : nat) (g : section_group),
      nth_error (dynamic_widget02.button_groups w) i = Some g ->
      dict_get (section_key (i + 1)) (dynamic_widget.get_selections w)
      = match g with
        | Some Radio1 => Some 1%Z
        | Some Radio2 => Some 2%Z
        | None => None
        end.
Proof.
  intros w. rewrite selections_closed_form. split.
  - rewrite length_map. unfold enumerate.
    generalize 0 as start.
    induction (dynamic_widget02.button_groups w) as [|g gs IH]; intros start;
      simpl; [reflexivity|].
    unfold is_checked at 1. simpl. destruct g; simpl; now rewrite IH.
  - intros i g Hnth.
    pose proof (enumerate_nth _ 0 i g Hnth) as Hin. simpl in Hin.
    destruct g as [r|].
    + assert (Hin' : In (i, Some r)
                       (filter is_checked
                          (enumerate (dynamic_widget02.button_groups w) 0)))
        by (apply filter_In; split; [exact Hin | reflexivity]).
      pose proof (dict_get_listed
                    (fun p : nat * section_group => section_key (fst p + 1))
                    (fun p => section_checkedId (snd p))
                    _ _ (NoDup_map_filter _ is_checked _
                           (enumerate_keys_distinct 1 0 _)) Hin') as H.
      refine (eq_trans H _). destruct r; reflexivity.
    + apply dict_get_unlisted. intros Hk.
      apply in_map_iff in Hk. destruct Hk as [[j g'] [E Hj]].
      apply section_key_inj in E. simpl in E.
      apply filter_In in Hj. destruct Hj as [Hj Hc].
      apply enumerate_In in Hj. destruct Hj as [_ Hj].
      replace (j - 0) with i in Hj by lia.
      rewrite Hnth in Hj. injection Hj as <-. discriminate Hc.
Qed.

Lemma get_selections_reports_checked_sections_witness :
  nth_error
    (dynamic_widget02.button_groups
       {| dynamic_widget02.section_counter := 3;
          dynamic_widget02.button_groups := [Some Radio2; None; Some Radio1] |})
    2 = Some (Some Radio1) /\
  dict_get "section_3"
    (dynamic_widget.get_selections
       {| dynamic_widget02.section_counter := 3;
          dynamic_widget02.button_groups := [Some Radio2; None; Some Radio1] |})
  = Some 1%Z.
Proof.
  split; [reflexivity|].
  exact (proj2 (get_selections_reports_checked_sections
                  {| dynamic_widget02.section_counter := 3;
                     dynamic_widget02.button_groups :=
                       [Some Radio2; None; Some Radio1] |})
           2 (Some Radio1) eq_refl).
Defined.

(** X23. [add_section] keeps the counter equal to the number of groups, and
    the section it adds shows up in [get_selections] of [dynamic_widget02]
    as a last entry, keyed by the new counter, with value [None]; in
    [dynamic_widget] the new section adds no entry. *)
Theorem add_section_extends_selections :
  forall (w : dynamic_widget02.widget),
    dynamic_widget02.section_counter w
      = length (dynamic_widget02.button_groups w) ->
    let w' := dynamic_widget02.add_section w in
    dynamic_widget02.section_counter w'
      = length (dynamic_widget02.button_groups w') /\
    dynamic_widget02.get_selections w'
      = dynamic_widget02.get_selections w
        ++ [(section_key (dynamic_widget02.section_counter w'), None)] /\
    dynamic_widget.get_selections w' = dynamic_widget.get_selections w.
Proof.
  intros w Hc w'. subst w'. split; [|split].
  - simpl. rewrite length_app, Hc. reflexivity.
  - rewrite !selections02_closed_form. simpl.
    rewrite enumerate_snoc, map_app, Hc. simpl.
    now replace (length (dynamic_widget02.button_groups w) + 1)
      with (S (length (dynamic_widget02.button_groups w) + 0)) by lia.
  - rewrite !selections_closed_form. simpl.
    rewrite enumerate_snoc, filter_app. simpl.
    now rewrite app_nil_r.
Qed.

Lemma add_section_extends_selections_witness :
  dynamic_widget02.section_counter dynamic_widget02.new_widget
    = length (dynamic_widget02.button_groups dynamic_widget02.new_widget) /\
  dynamic_widget02.get_selections
    (dynamic_widget02.add_section dynamic_widget02.new_widget)
  = [("section_1", None)].
Proof.
  split; [reflexivity|].
  exact (proj1 (proj2 (add_section_extends_selections
                         dynamic_widget02.new_widget eq_refl))).
Defined.

(* ================================================================== *)
(** * The dialogs side by side *)
(* ================================================================== *)

(** X24. The validating OK handlers of the dialog files accept and reject
    the same states: on the same rows they return the same state, and
    either all emit the same result or all warn with the same list of
    unselected labels under the same title; only the text of
    [design_dynamic_custom_table_3] differs. *)
Theorem ok_handlers_agree :
  forall (w : dialog),
    let base := design_dynamic_custom_table.on_ok_clicked w in
    select_all_custom_code_box.on_ok_clicked w = base /\
    fst (design_dynamic_custom_table_3.on_ok_clicked w) = fst base /\
    match snd base with
    | ResultReady result =>
        snd (design_dynamic_custom_table_3.on_ok_clicked w) = ResultReady result
    | Warning unselected title _ =>
        snd (design_dynamic_custom_table_3.on_ok_clicked w)
        = Warning unselected title
            (design_dynamic_custom_table_3.warning_text unselected)
    end.
Proof.
  intros w base. subst base.
  unfold design_dynamic_custom_table.on_ok_clicked,
    select_all_custom_code_box.on_ok_clicked,
    design_dynamic_custom_table_3.on_ok_clicked.
  destruct (truthy (unselected_items (button_groups w))); repeat split.
Qed.

(** X25. In [Custom_checkbox_2] a radio click changes the clicked row and
    no other: the clicked row ends on the clicked option, every other row
    and every label is as before, whatever the slot does to the master
    boxes; a click on a row that does not exist changes no row. *)
Theorem radio_click_changes_its_row_only :
  forall (w : Custom_checkbox_2.widget) (i j : nat) (r : radio_id),
    let w' := Custom_checkbox_2.step (Custom_checkbox_2.ToggleItem i r) w in
    nth_error (Custom_checkbox_2.button_groups w') j =
      if Nat.eqb j i
      then option_map (fun row => (fst row, Some r))
             (nth_error (Custom_checkbox_2.button_groups w) j)
      else nth_error (Custom_checkbox_2.button_groups w) j.
Proof.
  intros w i j r w'. subst w'. unfold Custom_checkbox_2.step. simpl.
  unfold Custom_checkbox_2.radio_setChecked.
  rewrite on_row_rows, nth_error_update_row.
  destruct (Nat.eqb j i); [|reflexivity].
  destruct (nth_error (Custom_checkbox_2.button_groups w) j) as [[s bg]|];
    [|reflexivity].
  simpl. now rewrite setChecked_true_state.
Qed.
